(** * BazelDeps: the Bazel file generator of conan/tools/google/bazeldeps.py

    A shallow embedding of the generator and the properties of its
    library file locator, path relativisation, per-dependency files and
    entry-point file.

    Python [str] values are modelled by [string]; a character of the
    model is a code point below 256.  Side effects of the generator
    (files saved, warnings printed) are recorded as a trace of events in
    program order, exceptions as the left summand of the result. *)

From Stdlib Require Import Strings.String Strings.Ascii Lists.List.
From Stdlib Require Import Bool.Bool Arith.Arith ZArith.ZArith Lia.
Import ListNotations.
Open Scope string_scope.

(** ** Python string operations used by the generator *)

Module PyStr.

Definition chr (n : nat) : string := String (ascii_of_nat n) EmptyString.

Definition NL : string := chr 10.
Definition DQ : string := chr 34.
Definition BSLASH : string := chr 92.

Definition slash : ascii := ascii_of_nat 47.
Definition backslash : ascii := ascii_of_nat 92.
Definition dquote : ascii := ascii_of_nat 34.
Definition dot : ascii := ascii_of_nat 46.

(** [bool(s)] *)
Definition truthy (s : string) : bool :=
  match s with EmptyString => false | String _ _ => true end.

(** [p.startswith(base)] *)
Definition startswith (p base : string) : bool := String.prefix base p.

(** [s[n:]] for [0 <= n] *)
Fixpoint slice_from (n : nat) (s : string) : string :=
  match n, s with
  | O, _ => s
  | S _, EmptyString => EmptyString
  | S n', String _ s' => slice_from n' s'
  end.

(** [s[:n]] for [0 <= n] *)
Fixpoint slice_to (n : nat) (s : string) : string :=
  match n, s with
  | O, _ => EmptyString
  | S _, EmptyString => EmptyString
  | S n', String c s' => String c (slice_to n' s')
  end.

(** [s.replace(a, r)] for a one-character [a] *)
Fixpoint replace (a : ascii) (r : string) (s : string) : string :=
  match s with
  | EmptyString => EmptyString
  | String c s' =>
      if Ascii.eqb c a then r ++ replace a r s' else String c (replace a r s')
  end.

(** [s.lstrip(c)] for a one-character [c] *)
Fixpoint lstrip (c : ascii) (s : string) : string :=
  match s with
  | EmptyString => EmptyString
  | String c' s' => if Ascii.eqb c' c then lstrip c s' else s
  end.

(** [sep.join(l)] *)
Fixpoint join (sep : string) (l : list string) : string :=
  match l with
  | [] => EmptyString
  | x :: rest =>
      match rest with
      | [] => x
      | _ :: _ => x ++ sep ++ join sep rest
      end
  end.

(** The line boundaries of [str.splitlines] below code point 256. *)
Definition is_linebreak (c : ascii) : bool :=
  existsb (Nat.eqb (nat_of_ascii c)) [10; 11; 12; 13; 28; 29; 30; 133]%nat.

(** [s.splitlines(True)]: the lines of [s] with their line ends kept;
    a carriage return followed by a line feed is one line end. *)
Fixpoint splitlines_keepends (s : string) : list string :=
  match s with
  | EmptyString => []
  | String c s' =>
      if Nat.eqb (nat_of_ascii c) 13 then
        match s' with
        | String c' s'' =>
            if Nat.eqb (nat_of_ascii c') 10
            then String c (String c' EmptyString) :: splitlines_keepends s''
            else String c EmptyString :: splitlines_keepends s'
        | EmptyString => [String c EmptyString]
        end
      else if is_linebreak c then String c EmptyString :: splitlines_keepends s'
      else
        match splitlines_keepends s' with
        | [] => [String c EmptyString]
        | l :: ls => String c l :: ls
        end
  end.

(** [c in s] for a one-character [c] *)
Fixpoint has_char (c : ascii) (s : string) : bool :=
  match s with
  | EmptyString => false
  | String c' s' => Ascii.eqb c' c || has_char c s'
  end.

(** [x in t] for a tuple of strings *)
Definition str_in (x : string) (t : list string) : bool :=
  existsb (String.eqb x) t.

End PyStr.

(** ** The [os.path] functions the locator calls *)

Module OsPath.
Import PyStr.

(** [p.rfind(c)] for a one-character [c]: the last index, or -1. *)
Fixpoint rfind_from (c : ascii) (s : string) (i acc : Z) : Z :=
  match s with
  | EmptyString => acc
  | String c' s' => rfind_from c s' (i + 1)%Z (if Ascii.eqb c' c then i else acc)
  end.

Definition rfind (c : ascii) (s : string) : Z := rfind_from c s 0%Z (-1)%Z.

(** The [while filenameIndex < dotIndex] loop of [genericpath._splitext];
    [n] bounds the iterations left and is started at
    [dotIndex - filenameIndex]. *)
Fixpoint _splitext_loop (n : nat) (p : string) (filenameIndex dotIndex : Z)
  : option (string * string) :=
  match n with
  | O => None
  | S n' =>
      if (filenameIndex <? dotIndex)%Z then
        match String.get (Z.to_nat filenameIndex) p with
        | Some c =>
            if negb (Ascii.eqb c dot)
            then Some (slice_to (Z.to_nat dotIndex) p, slice_from (Z.to_nat dotIndex) p)
            else _splitext_loop n' p (filenameIndex + 1)%Z dotIndex
        | None => Some (slice_to (Z.to_nat dotIndex) p, slice_from (Z.to_nat dotIndex) p)
        end
      else None
  end.

(** [genericpath._splitext(p, sep, altsep, extsep)] with [extsep = "."] *)
Definition _splitext (p : string) (sep : ascii) (altsep : option ascii)
  : string * string :=
  let sepIndex := rfind sep p in
  let sepIndex :=
    match altsep with
    | Some a => Z.max sepIndex (rfind a p)
    | None => sepIndex
    end in
  let dotIndex := rfind dot p in
  let fallthrough := (p, EmptyString) in
  if (dotIndex >? sepIndex)%Z then
    let filenameIndex := (sepIndex + 1)%Z in
    match _splitext_loop (Z.to_nat (dotIndex - filenameIndex)) p filenameIndex dotIndex with
    | Some r => r
    | None => fallthrough
    end
  else fallthrough.

(** [posixpath.splitext] *)
Definition posix_splitext (p : string) : string * string :=
  _splitext p slash None.

(** [s.endswith(c)] for a one-character [c] *)
Fixpoint endswith_char (s : string) (c : ascii) : bool :=
  match s with
  | EmptyString => false
  | String c' EmptyString => Ascii.eqb c' c
  | String _ s' => endswith_char s' c
  end.

(** [posixpath.join(a, b)] *)
Definition posix_join (a b : string) : string :=
  if startswith b (String slash EmptyString) then b
  else if negb (truthy a) || endswith_char a slash then a ++ b
  else a ++ String slash EmptyString ++ b.

End OsPath.

(** ** What the generator reads from its surroundings *)

(** A path of the file system is a regular file or a directory with the
    names [os.listdir] returns, in the order it returns them. *)
Inductive node : Type :=
| File
| Dir (entries : list string).

(** [os.path] is a module chosen by the platform; the generator uses its
    [splitext] and [join], which are fields here, and [posix_env] fills
    them with those of [posixpath].  [platform_system] is the value of
    [platform.system()]. *)
Record Env : Type := mkEnv {
  os_path_splitext : string -> string * string;
  os_path_join : string -> string -> string;
  fs : string -> option node;
  platform_system : string
}.

Definition posix_env (fs : string -> option node) (system : string) : Env :=
  mkEnv OsPath.posix_splitext OsPath.posix_join fs system.

(** ** Exceptions, events and the monad of the generator *)

Inductive exn : Type :=
| ConanException (msg : string)
| TypeError
| OSError (path : string).

Inductive event : Type :=
| Save (filename content : string)
| Warning (msg : string).

Definition M (A : Type) : Type := (list event * (exn + A))%type.

Definition ret {A} (a : A) : M A := ([], inr a).

Definition raise {A} (e : exn) : M A := ([], inl e).

Definition bind {A B} (m : M A) (k : A -> M B) : M B :=
  match m with
  | (t, inl e) => (t, inl e)
  | (t, inr a) => let (t', r) := k a in ((t ++ t')%list, r)
  end.

Definition emit (e : event) : M unit := ([e], inr tt).

Definition lift {A} (r : exn + A) : M A := ([], r).

Notation "x <- m ;; k" := (bind m (fun x => k))
  (at level 61, m at next level, right associativity).
Notation "m ;;; k" := (bind m (fun _ => k))
  (at level 61, right associativity).

(** [conans.util.files.save] is recorded as an event and is taken to
    succeed.  The library directories are read from [fs] throughout a
    run: the files saved under the generators folder are taken not to
    be among them. *)
Definition save (filename content : string) : M unit := emit (Save filename content).

Definition warning (msg : string) : M unit := emit (Warning msg).

(** ** The library file locator *)

Section Locator.
Import PyStr.
Variable env : Env.

Definition os_path_exists (p : string) : bool :=
  match fs env p with Some _ => true | None => false end.

(** [os.listdir]: the names of a directory; on a path that is not a
    directory it raises.  A directory of [fs] can always be listed. *)
Definition os_listdir (p : string) : M (list string) :=
  match fs env p with
  | Some (Dir entries) => ret entries
  | _ => raise (OSError p)
  end.

Definition lib_extensions : list string := [".so"; ".lib"; ".a"; ".dylib"; ".bc"].

(** The value of [name] compared with [lib] for the file [f]. *)
Definition lib_name_of (f : string) : string :=
  let (name, ext) := os_path_splitext env f in
  if str_in ext lib_extensions then
    if negb (String.eqb ext ".lib") && startswith name "lib"
    then slice_from 3 name
    else name
  else name.

(** The loop [for f in files]. *)
Fixpoint scan_files (libdir : string) (files : list string) (lib : string)
  : option string :=
  match files with
  | [] => None
  | f :: rest =>
      if String.eqb lib (lib_name_of f)
      then Some (os_path_join env libdir f)
      else scan_files libdir rest lib
  end.

Fixpoint _get_lib_file_paths (libdirs : list string) (lib : string)
  : M (option string) :=
  match libdirs with
  | [] =>
      warning ("The library " ++ lib ++ " cannot be found in the dependency") ;;;
      ret None
  | libdir :: rest =>
      if negb (os_path_exists libdir) then
        warning ("The library folder doesn't exist: " ++ libdir) ;;;
        _get_lib_file_paths rest lib
      else
        files <- os_listdir libdir ;;
        match scan_files libdir files lib with
        | Some path => ret (Some path)
        | None => _get_lib_file_paths rest lib
        end
  end.

End Locator.

(** ** The resolved dependency graph *)

(** The aggregated [cpp_info] of a dependency. *)
Record CppInfo : Type := mkCppInfo {
  libs : list string;
  includedirs : list string;
  defines : list string;
  system_libs : list string;
  libdirs : list string
}.

(** A dependency as the generator reads it: [ref.name], [package_folder]
    ([None] for an editable package), the aggregated components of
    [cpp_info], the [ref.name] of every value of [dependencies.items()]
    in order, and the truth value of
    [options.get_safe("shared") if options else False]. *)
Record Dependency : Type := mkDependency {
  ref_name : string;
  package_folder : option string;
  cpp_info : CppInfo;
  dependencies : list string;
  options_shared : bool
}.

(** The conanfile: [generators_folder], and the values of
    [dependencies.direct_build] and [dependencies.host] in order. *)
Record ConanFile : Type := mkConanFile {
  generators_folder : string;
  direct_build : list Dependency;
  host : list Dependency
}.

(** An insertion-ordered [dict] with string keys: [d[k] = v]. *)
Fixpoint dict_set (d : list (string * string)) (k v : string)
  : list (string * string) :=
  match d with
  | [] => [(k, v)]
  | (k', v') :: rest =>
      if String.eqb k' k then (k', v) :: rest else (k', v') :: dict_set rest k v
  end.

(** ** Per-dependency build files *)

Section Generator.
Import PyStr.
Variable env : Env.

Definition _save_dependency_buildfile
  (dependency : Dependency) (buildfile_content conandeps : string) : M string :=
  let filename := conandeps ++ "/" ++ ref_name dependency ++ "/BUILD" in
  save filename buildfile_content ;;;
  ret filename.

(** The dedented [filegroup] text with the name filled in. *)
Definition _get_build_dependency_buildfile_content (dependency : Dependency)
  : string :=
  NL ++ "filegroup(" ++ NL ++
  "    name = " ++ DQ ++ ref_name dependency ++ "_binaries" ++ DQ ++ "," ++ NL ++
  "    data = glob([" ++ DQ ++ "**" ++ DQ ++ "])," ++ NL ++
  "    visibility = [" ++ DQ ++ "//visibility:public" ++ DQ ++ "]," ++ NL ++
  ")" ++ NL ++ NL.

Definition _relativize_path (p : string) (base_path : option string)
  : exn + string :=
  match base_path with
  | None => inl TypeError
  | Some base_path =>
      if startswith p base_path
      then inr (lstrip slash
                  (replace backslash "/" (slice_from (String.length base_path) p)))
      else inr (lstrip slash (replace backslash "/" p))
  end.

(** The values handed to the template. *)
Record Context : Type := mkContext {
  ctx_name : string;
  ctx_libs : list (string * string);
  ctx_headers : string;
  ctx_includes : string;
  ctx_defines : string;
  ctx_linkopts : string;
  ctx_library_type : string;
  ctx_dependencies : list string
}.

Definition str_concat_map {A} (f : A -> string) (l : list A) : string :=
  fold_right (fun x acc => f x ++ acc) EmptyString l.

Definition when (b : bool) (s : string) : string :=
  if b then s else EmptyString.

Definition render_cc_import (library_type : string) (item : string * string)
  : string :=
  NL ++ "cc_import(" ++ NL ++
  "    name = " ++ DQ ++ fst item ++ "_precompiled" ++ DQ ++ "," ++ NL ++
  "    " ++ library_type ++ " = " ++ DQ ++ snd item ++ DQ ++ NL ++
  ")" ++ NL.

(** The rendering of the dedented template by jinja2 with the context
    as keyword arguments: text outside the tags is copied, a [for] body is
    emitted once per item, an [if] body when its value is true, and
    the single newline that ends the template is dropped. *)
Definition render (c : Context) : string :=
  NL ++ "load(" ++ DQ ++ "@rules_cc//cc:defs.bzl" ++ DQ ++ ", " ++
    DQ ++ "cc_import" ++ DQ ++ ", " ++ DQ ++ "cc_library" ++ DQ ++ ")" ++ NL ++
  NL ++
  str_concat_map (render_cc_import (ctx_library_type c)) (ctx_libs c) ++
  NL ++ NL ++
  "cc_library(" ++ NL ++
  "    name = " ++ DQ ++ ctx_name c ++ DQ ++ "," ++ NL ++
  "    " ++
  when (truthy (ctx_headers c))
    (NL ++ "    hdrs = glob([" ++ ctx_headers c ++ "])," ++ NL ++ "    ") ++
  NL ++ "    " ++
  when (truthy (ctx_includes c))
    (NL ++ "    includes = [" ++ ctx_includes c ++ "]," ++ NL ++ "    ") ++
  NL ++ "    " ++
  when (truthy (ctx_defines c))
    (NL ++ "    defines = [" ++ ctx_defines c ++ "]," ++ NL ++ "    ") ++
  NL ++ "    " ++
  when (truthy (ctx_linkopts c))
    (NL ++ "    linkopts = [" ++ ctx_linkopts c ++ "]," ++ NL ++ "    ") ++
  NL ++ "    visibility = [" ++ DQ ++ "//visibility:public" ++ DQ ++ "]," ++ NL ++
  "    " ++
  when (match ctx_libs c with [] => false | _ :: _ => true end)
    (NL ++ "    deps = [" ++ NL ++ "    " ++
     str_concat_map
       (fun item : string * string =>
          NL ++ "    " ++ DQ ++ ":" ++ fst item ++ "_precompiled" ++ DQ ++ "," ++
          NL ++ "    ")
       (ctx_libs c) ++
     NL ++ "    " ++
     str_concat_map
       (fun dep : string => NL ++ "    " ++ DQ ++ "@" ++ dep ++ DQ ++ "," ++ NL ++ "    ")
       (ctx_dependencies c) ++
     NL ++ "    ]," ++ NL ++ "    ") ++
  NL ++ ")" ++ NL.

(** The loop over [cpp_info.includedirs]: the relativised paths. *)
Fixpoint relativize_all (paths : list string) (base_path : option string)
  : exn + list string :=
  match paths with
  | [] => inr []
  | path :: rest =>
      match _relativize_path path base_path with
      | inl e => inl e
      | inr r =>
          match relativize_all rest base_path with
          | inl e => inl e
          | inr rs => inr (r :: rs)
          end
      end
  end.

Definition format_define (define : string) : string :=
  DQ ++ replace dquote (BSLASH ++ BSLASH ++ BSLASH ++ DQ) define ++ DQ.

Definition format_linkopt (system_lib : string) : string :=
  if String.eqb (platform_system env) "Windows"
  then DQ ++ "/DEFAULTLIB:" ++ system_lib ++ DQ
  else DQ ++ "-l" ++ system_lib ++ DQ.

(** The loop [for lib in cpp_info.libs] filling the dict [libs]. *)
Fixpoint locate_libs (libdirs : list string) (package_folder : option string)
  (names : list string) (libs : list (string * string))
  : M (list (string * string)) :=
  match names with
  | [] => ret libs
  | lib :: rest =>
      real_path <- _get_lib_file_paths env libdirs lib ;;
      match real_path with
      | Some real_path =>
          if truthy real_path then
            r <- lift (_relativize_path real_path package_folder) ;;
            locate_libs libdirs package_folder rest (dict_set libs lib r)
          else locate_libs libdirs package_folder rest libs
      | None => locate_libs libdirs package_folder rest libs
      end
  end.

Definition _get_dependency_buildfile_content (dependency : Dependency)
  : M (option string) :=
  let cpp_info := cpp_info dependency in
  if match libs cpp_info with [] => true | _ :: _ => false end
     && match includedirs cpp_info with [] => true | _ :: _ => false end
  then ret None
  else
    let package_folder := package_folder dependency in
    rel <- lift (relativize_all (includedirs cpp_info) package_folder) ;;
    let headers := join ", " (map (fun r => DQ ++ r ++ "/**" ++ DQ) rel) in
    let includes := join ", " (map (fun r => DQ ++ r ++ DQ) rel) in
    let defines := join ", " (map format_define (defines cpp_info)) in
    let linkopts := join ", " (map format_linkopt (system_libs cpp_info)) in
    libs <- locate_libs (libdirs cpp_info) package_folder (libs cpp_info) [] ;;
    let context :=
      mkContext (ref_name dependency) libs headers includes defines linkopts
        (if options_shared dependency then "shared_library" else "static_library")
        (dependencies dependency) in
    ret (Some (render context)).

(** ** The entry-point file *)

(** The dedented [native.new_local_repository] text, formatted with
    its three arguments. *)
Definition snippet_format (name path build_file : string) : string :=
  NL ++ "native.new_local_repository(" ++ NL ++
  "    name=" ++ DQ ++ name ++ DQ ++ "," ++ NL ++
  "    path=" ++ DQ ++ path ++ DQ ++ "," ++ NL ++
  "    build_file=" ++ DQ ++ build_file ++ DQ ++ "," ++ NL ++
  ")" ++ NL.

Definition _create_new_local_repository
  (dependency : Dependency) (dependency_buildfile_name : string) : M string :=
  match package_folder dependency with
  | None => raise (ConanException "BazelDeps doesn't support editable packages")
  | Some package_folder =>
      ret (snippet_format (ref_name dependency)
             (replace backslash "/" package_folder)
             (replace backslash "/" dependency_buildfile_name))
  end.

Definition _get_main_buildfile_content (local_repositories : list string) : string :=
  let function_content :=
    match local_repositories with
    | _ :: _ =>
        let function_content := join NL local_repositories in
        join "    " (splitlines_keepends function_content)
    | [] => "    pass"
    end in
  NL ++ "def load_conan_dependencies():" ++ NL ++ "    " ++ function_content ++ NL.

Definition _save_main_buildfiles (content generators_folder : string) : M unit :=
  save (generators_folder ++ "/BUILD") EmptyString ;;;
  save (generators_folder ++ "/dependencies.bzl") content.

(** ** [generate] *)

(** The loop over [dependencies.direct_build.values()]. *)
Fixpoint build_loop (generators_folder : string) (deps : list Dependency)
  (local_repositories : list string) : M (list string) :=
  match deps with
  | [] => ret local_repositories
  | build_dependency :: rest =>
      let content := _get_build_dependency_buildfile_content build_dependency in
      filename <- _save_dependency_buildfile build_dependency content generators_folder ;;
      local_repository <- _create_new_local_repository build_dependency filename ;;
      build_loop generators_folder rest (local_repositories ++ [local_repository])%list
  end.

(** The loop over [dependencies.host.values()]. *)
Fixpoint host_loop (generators_folder : string) (deps : list Dependency)
  (local_repositories : list string) : M (list string) :=
  match deps with
  | [] => ret local_repositories
  | dependency :: rest =>
      content <- _get_dependency_buildfile_content dependency ;;
      match content with
      | None => host_loop generators_folder rest local_repositories
      | Some content =>
          if negb (truthy content)
          then host_loop generators_folder rest local_repositories
          else
            filename <- _save_dependency_buildfile dependency content generators_folder ;;
            local_repository <- _create_new_local_repository dependency filename ;;
            host_loop generators_folder rest (local_repositories ++ [local_repository])%list
      end
  end.

Definition generate (conanfile : ConanFile) : M unit :=
  let generators_folder := generators_folder conanfile in
  local_repositories <- build_loop generators_folder (direct_build conanfile) [] ;;
  local_repositories <- host_loop generators_folder (host conanfile) local_repositories ;;
  let content := _get_main_buildfile_content local_repositories in
  _save_main_buildfiles content generators_folder.

End Generator.


(** * Notions used to state the properties *)

Section Notions.
Import PyStr.
Variable env : Env.

(** ** The matching rule of the locator, as the specification words it *)

Definition strip_lib_prefix (stem : string) : string :=
  if startswith stem "lib" then slice_from 3 stem else stem.

(** The stem a file name is compared by: for the extensions [.so],
    [.a], [.dylib] and [.bc] the stem without a leading [lib]; for
    [.lib] and for every other extension the stem as it is. *)
Definition matching_stem (f : string) : string :=
  let (stem, ext) := os_path_splitext env f in
  if str_in ext [".so"; ".a"; ".dylib"; ".bc"] then strip_lib_prefix stem else stem.

Definition missing_folder_warning (libdir : string) : event :=
  Warning ("The library folder doesn't exist: " ++ libdir).

(** ** What a run saved *)

Definition saved (trace : list event) : list (string * string) :=
  flat_map (fun e => match e with
                     | Save filename content => [(filename, content)]
                     | Warning _ => []
                     end) trace.

Definition raises {A} (m : M A) : Prop := exists e, snd m = inl e.

(** The path of a per-dependency file, from the dependency's name. *)
Definition buildfile_path (generators_folder name : string) : string :=
  generators_folder ++ "/" ++ name ++ "/BUILD".

(** ** One visit of the graph walker *)

Inductive visited : Type :=
| BuildDep (d : Dependency)
| HostDep (d : Dependency).

(** The dependencies in the order the graph gives them: the direct
    build-time ones, then the host-time ones. *)
Definition graph_order (conanfile : ConanFile) : list visited :=
  (map BuildDep (direct_build conanfile) ++ map HostDep (host conanfile))%list.

(** One iteration of the first loop of [generate]: its events, then an
    exception or the snippets it appends. *)
Definition visit_build (generators_folder : string) (d : Dependency)
  : M (list string) :=
  filename <- _save_dependency_buildfile d
                (_get_build_dependency_buildfile_content d) generators_folder ;;
  local_repository <- _create_new_local_repository d filename ;;
  ret [local_repository].

(** One iteration of the second loop of [generate]. *)
Definition visit_host (generators_folder : string) (d : Dependency)
  : M (list string) :=
  content <- _get_dependency_buildfile_content env d ;;
  match content with
  | None => ret []
  | Some content =>
      if negb (truthy content) then ret []
      else
        filename <- _save_dependency_buildfile d content generators_folder ;;
        local_repository <- _create_new_local_repository d filename ;;
        ret [local_repository]
  end.

Definition visit (generators_folder : string) (v : visited) : M (list string) :=
  match v with
  | BuildDep d => visit_build generators_folder d
  | HostDep d => visit_host generators_folder d
  end.

(** A single pass over a list of dependencies, each visited once, the
    snippets collected in the order of the visits. *)
Fixpoint visit_in_order (generators_folder : string) (vs : list visited)
  : M (list string) :=
  match vs with
  | [] => ret []
  | v :: rest =>
      here <- visit generators_folder v ;;
      later <- visit_in_order generators_folder rest ;;
      ret (here ++ later)%list
  end.

(** The snippets a visit contributes when it returns. *)
Definition snippets_of (generators_folder : string) (v : visited) : list string :=
  match snd (visit generators_folder v) with
  | inr l => l
  | inl _ => []
  end.

(** ** The dependencies that get a file *)

Definition has_build_info (d : Dependency) : bool :=
  match libs (cpp_info d), includedirs (cpp_info d) with
  | [], [] => false
  | _, _ => true
  end.

(** The content rendered for a host dependency, when there is one. *)
Definition host_content (d : Dependency) : option string :=
  match snd (_get_dependency_buildfile_content env d) with
  | inr (Some content) => if truthy content then Some content else None
  | _ => None
  end.

(** The dependency of a visit with the content of its file, or nothing
    for a host dependency that is skipped. *)
Definition written_for (v : visited) : list (Dependency * string) :=
  match v with
  | BuildDep d => [(d, _get_build_dependency_buildfile_content d)]
  | HostDep d =>
      match host_content d with
      | Some content => [(d, content)]
      | None => []
      end
  end.

Definition written (conanfile : ConanFile) : list (Dependency * string) :=
  flat_map written_for (graph_order conanfile).

(** The file saved for a dependency: its path and its content. *)
Definition file_of (generators_folder : string) (dc : Dependency * string)
  : string * string :=
  (buildfile_path generators_folder (ref_name (fst dc)), snd dc).

(** The snippet of a dependency that has a package folder. *)
Definition is_snippet_of (generators_folder : string)
  (dc : Dependency * string) (snippet : string) : Prop :=
  exists folder,
    package_folder (fst dc) = Some folder /\
    snippet = snippet_format (ref_name (fst dc))
                (replace backslash "/" folder)
                (replace backslash "/"
                   (buildfile_path generators_folder (ref_name (fst dc)))).

(** Every line of a text moved four columns to the right. *)
Definition indent (s : string) : string :=
  "    " ++ join "    " (splitlines_keepends s).

(** The text of the generated function after its [def] line, as the
    specification words it: the statement [pass] when there is no
    snippet, else the indented snippets one after the other, an
    indented empty line between two of them. *)
Definition function_text (snippets : list string) : string :=
  match snippets with
  | [] => "        pass"
  | _ :: _ => join ("    " ++ NL) (map indent snippets)
  end.

Definition ends_with_newline (s : string) : Prop := exists a, s = a ++ NL.

(** What holds of an entry of the dict [libs]: its key is a library
    that was located, its value the relativised path of the file. *)
Definition located (libdirs : list string) (folder : option string)
  (names : list string) (k v : string) : Prop :=
  In k names
  /\ exists path,
      snd (_get_lib_file_paths env libdirs k) = inr (Some path)
      /\ _relativize_path path folder = inr v.

(** The warning printed when no file is found for a library. *)
Definition not_found_warning (lib : string) : event :=
  Warning ("The library " ++ lib ++ " cannot be found in the dependency").

(** The text a define is written as, without the quotes around it. *)
Definition escaped_define (define : string) : string :=
  replace dquote (BSLASH ++ BSLASH ++ BSLASH ++ DQ) define.

(** ** The texts of the generated files, as the specification words them *)

(** A text holds a part when the part stands somewhere inside it. *)
Definition contains (text part : string) : Prop :=
  exists before after, text = before ++ part ++ after.

(** Every backslash replaced by a forward slash. *)
Fixpoint forward_slashes (s : string) : string :=
  match s with
  | EmptyString => EmptyString
  | String c s' => String (if Ascii.eqb c backslash then slash else c) (forward_slashes s')
  end.

(** The text after its leading slashes. *)
Fixpoint without_leading_slashes (s : string) : string :=
  match s with
  | EmptyString => EmptyString
  | String c s' => if Ascii.eqb c slash then without_leading_slashes s' else s
  end.

(** The path emitted for [path] in the BUILD file of a dependency with
    package folder [folder]: when the path starts with the folder, what
    remains after the folder, else the whole path; in both cases with
    forward slashes and no leading slash. *)
Definition relative_to (folder path : string) : string :=
  without_leading_slashes
    (forward_slashes
       (if startswith path folder
        then slice_from (String.length folder) path
        else path)).

(** The [hdrs] and [includes] attributes of the [cc_library] rule for
    the include directories [dirs]. *)
Definition hdrs_attribute (folder : string) (dirs : list string) : string :=
  "hdrs = glob(["
    ++ join ", " (map (fun path => DQ ++ relative_to folder path ++ "/**" ++ DQ) dirs)
    ++ "]),".

Definition includes_attribute (folder : string) (dirs : list string) : string :=
  "includes = ["
    ++ join ", " (map (fun path => DQ ++ relative_to folder path ++ DQ) dirs)
    ++ "],".

(** The [cc_import] rule of the library [lib] found in the file [file]. *)
Definition cc_import_rule (lib library_type file : string) : string :=
  "cc_import(" ++ NL
    ++ "    name = " ++ DQ ++ lib ++ "_precompiled" ++ DQ ++ "," ++ NL
    ++ "    " ++ library_type ++ " = " ++ DQ ++ file ++ DQ ++ NL
    ++ ")".

Definition library_type_of (d : Dependency) : string :=
  if options_shared d then "shared_library" else "static_library".

Definition line (s : string) : string := s ++ NL.

(** The registration of a repository: an empty line, then the call of
    [native.new_local_repository] with the name, the path and the build
    file, one argument on each line. *)
Definition registration (name path build_file : string) : string :=
  line EmptyString
    ++ line "native.new_local_repository("
    ++ line ("    name=" ++ DQ ++ name ++ DQ ++ ",")
    ++ line ("    path=" ++ DQ ++ path ++ DQ ++ ",")
    ++ line ("    build_file=" ++ DQ ++ build_file ++ DQ ++ ",")
    ++ line ")".

(** The registration of a dependency that has a file: it carries the
    name of the dependency, its package folder and the path of its
    file, both with forward slashes. *)
Definition is_registration_of (generators_folder : string)
  (dc : Dependency * string) (text : string) : Prop :=
  exists folder,
    package_folder (fst dc) = Some folder /\
    text = registration (ref_name (fst dc))
             (forward_slashes folder)
             (forward_slashes (buildfile_path generators_folder (ref_name (fst dc)))).

(** The text of dependencies.bzl for the registrations [snippets]. *)
Definition entry_point_text (snippets : list string) : string :=
  line EmptyString
    ++ line "def load_conan_dependencies():"
    ++ line (function_text snippets).

(** Two surroundings in which the generator reads the same: the same
    [os.path] functions, the same platform, and the same listing for
    every library directory of the host dependencies of the graph. *)
Definition same_inputs (env' : Env) (conanfile : ConanFile) : Prop :=
  (forall f, os_path_splitext env f = os_path_splitext env' f) /\
  (forall a b, os_path_join env a b = os_path_join env' a b) /\
  platform_system env = platform_system env' /\
  (forall d libdir,
      In d (host conanfile) -> In libdir (libdirs (cpp_info d)) ->
      fs env libdir = fs env' libdir).

End Notions.

(** * A small graph to run the generator on *)

Module Example.
Import PyStr.

Definition disk (p : string) : option node :=
  if String.eqb p "/pkg/zlib/lib"
  then Some (Dir ["README"; "foo.dll"; "libz.a"; "z.lib"])
  else None.

(** The same library directory, and one more directory elsewhere. *)
Definition disk' (p : string) : option node :=
  if String.eqb p "/tmp" then Some (Dir ["scratch"]) else disk p.

Definition linux : Env := posix_env disk "Linux".
Definition linux' : Env := posix_env disk' "Linux".

Definition zlib : Dependency :=
  mkDependency "zlib" (Some "/pkg/zlib")
    (mkCppInfo ["z"] ["/pkg/zlib/include"] ["ZLIB_CONST"] ["m"]
       ["/pkg/zlib/missing"; "/pkg/zlib/lib"])
    [] false.

(** A host dependency with neither libraries nor include directories. *)
Definition meta : Dependency :=
  mkDependency "meta" (Some "/pkg/meta") (mkCppInfo [] [] [] [] []) [] false.

Definition cmake : Dependency :=
  mkDependency "cmake" (Some "/pkg/cmake") (mkCppInfo [] [] [] [] []) [] false.

(** An editable package: no package folder; its library is not found. *)
Definition editable : Dependency :=
  mkDependency "local" None (mkCppInfo ["local"] [] [] [] []) [] false.

Definition project : ConanFile := mkConanFile "/gen" [cmake] [meta; zlib].
Definition only_meta : ConanFile := mkConanFile "/gen" [] [meta].
Definition with_editable : ConanFile := mkConanFile "/gen" [] [zlib; editable; meta].
Definition editable_first : ConanFile := mkConanFile "/gen" [] [editable; zlib].

End Example.

(** * Properties *)

(** ** The monad *)

Section MonadLaws.
Context {A B C : Type}.

Lemma bind_ret_l (a : A) (k : A -> M B) : bind (ret a) k = k a.
Proof. unfold bind, ret. destruct (k a) as [t r]. reflexivity. Qed.

Lemma bind_ret_r (m : M A) : bind m ret = m.
Proof.
  destruct m as [t [e | a]]; simpl; [reflexivity |].
  now rewrite app_nil_r.
Qed.

Lemma bind_assoc (m : M A) (k : A -> M B) (h : B -> M C) :
  bind (bind m k) h = bind m (fun a => bind (k a) h).
Proof.
  destruct m as [t [e | a]]; simpl; [reflexivity |].
  destruct (k a) as [t' [e | b]]; simpl; [reflexivity |].
  destruct (h b) as [t'' r]. now rewrite app_assoc.
Qed.

Lemma bind_ext (m : M A) (k k' : A -> M B) :
  (forall a, k a = k' a) -> bind m k = bind m k'.
Proof.
  intros H. destruct m as [t [e | a]]; simpl; [reflexivity |].
  now rewrite H.
Qed.

Lemma bind_emit (e : event) (m : M B) :
  bind (emit e) (fun _ => m) = (e :: fst m, snd m).
Proof. destruct m as [t r]. reflexivity. Qed.

Lemma bind_returned (t : list event) (a : A) (k : A -> M B) :
  bind (t, inr a) k = ((t ++ fst (k a))%list, snd (k a)).
Proof. unfold bind. now destruct (k a). Qed.

(** A computation that returns normally has run both of its parts. *)
Lemma bind_inr (m : M A) (k : A -> M B) (b : B) :
  snd (bind m k) = inr b ->
  exists a, snd m = inr a /\ snd (k a) = inr b /\
            fst (bind m k) = (fst m ++ fst (k a))%list.
Proof.
  destruct m as [t [e | a]]; simpl; [discriminate |].
  destruct (k a) as [t' r] eqn:E. simpl. intros ->.
  exists a. rewrite E. auto.
Qed.

End MonadLaws.

Arguments bind : simpl never.

(** ** Strings *)

Module PyStrFacts.
Import PyStr.

Lemma startswith_app (base rest : string) : startswith (base ++ rest) base = true.
Proof.
  unfold startswith. induction base as [| c base IH]; simpl.
  - now destruct rest.
  - destruct (ascii_dec c c) as [_ | n]; [exact IH | now elim n].
Qed.

Lemma slice_from_app (base rest : string) :
  slice_from (String.length base) (base ++ rest) = rest.
Proof. induction base as [| c base IH]; simpl; [reflexivity | exact IH]. Qed.

Lemma startswith_split (p base : string) :
  startswith p base = true -> p = base ++ slice_from (String.length base) p.
Proof.
  unfold startswith. revert p. induction base as [| c base IH]; intros p; simpl.
  - reflexivity.
  - destruct p as [| c' p]; simpl; [discriminate |].
    destruct (ascii_dec c c') as [-> | _]; [| discriminate].
    intros H. f_equal. now apply IH.
Qed.

Lemma has_char_app (c : ascii) (s t : string) :
  has_char c (s ++ t) = has_char c s || has_char c t.
Proof.
  induction s as [| c' s IH]; simpl; [reflexivity |].
  now rewrite IH, orb_assoc.
Qed.

(** Replacing [a] by a text without [a] leaves no [a]. *)
Lemma replace_removes (a : ascii) (r s : string) :
  has_char a r = false -> has_char a (replace a r s) = false.
Proof.
  intros Hr. induction s as [| c s IH]; simpl; [reflexivity |].
  destruct (Ascii.eqb c a) eqn:E.
  - now rewrite has_char_app, Hr, IH.
  - simpl. now rewrite E, IH.
Qed.

Lemma lstrip_has_char (c a : ascii) (s : string) :
  has_char a s = false -> has_char a (lstrip c s) = false.
Proof.
  induction s as [| c' s IH]; simpl; [reflexivity |].
  intros H. apply orb_false_iff in H as [H1 H2].
  destruct (Ascii.eqb c' c); [now apply IH |].
  simpl. now rewrite H1, H2.
Qed.

Lemma lstrip_no_lead (c : ascii) (s : string) :
  startswith (lstrip c s) (String c EmptyString) = false.
Proof.
  unfold startswith. induction s as [| c' s IH]; simpl; [reflexivity |].
  destruct (Ascii.eqb c' c) eqn:E; [exact IH |].
  simpl. destruct (ascii_dec c c') as [-> | _]; [| reflexivity].
  now rewrite Ascii.eqb_refl in E.
Qed.

Lemma truthy_app_l (s t : string) : truthy s = true -> truthy (s ++ t) = true.
Proof. now destruct s. Qed.

Lemma append_assoc (s t u : string) : (s ++ t) ++ u = s ++ t ++ u.
Proof. induction s as [| c s IH]; simpl; [reflexivity | now rewrite IH]. Qed.

(** *** Lines *)

Lemma splitlines_nonempty (s : string) :
  truthy s = true -> splitlines_keepends s <> [].
Proof.
  destruct s as [| c s]; [discriminate |]. intros _. simpl.
  destruct (Nat.eqb (nat_of_ascii c) 13).
  - destruct s as [| c' s]; [discriminate |].
    destruct (Nat.eqb (nat_of_ascii c') 10); discriminate.
  - destruct (is_linebreak c); [discriminate |].
    destruct (splitlines_keepends s); discriminate.
Qed.

Lemma splitlines_newline (s : string) :
  splitlines_keepends (NL ++ s) = NL :: splitlines_keepends s.
Proof. reflexivity. Qed.

Lemma splitlines_cons (c : ascii) (s : string) :
  splitlines_keepends (String c s)
    = if Nat.eqb (nat_of_ascii c) 13 then
        match s with
        | String c' s'' =>
            if Nat.eqb (nat_of_ascii c') 10
            then String c (String c' EmptyString) :: splitlines_keepends s''
            else String c EmptyString :: splitlines_keepends s
        | EmptyString => [String c EmptyString]
        end
      else if is_linebreak c then String c EmptyString :: splitlines_keepends s
      else
        match splitlines_keepends s with
        | [] => [String c EmptyString]
        | l :: ls => String c l :: ls
        end.
Proof. reflexivity. Qed.

(** A text that ends with a newline is split apart from what follows. *)
Lemma splitlines_app_newline (a b : string) :
  splitlines_keepends (a ++ NL ++ b)
    = (splitlines_keepends (a ++ NL) ++ splitlines_keepends b)%list.
Proof.
  enough (H : (splitlines_keepends (a ++ NL ++ b)
               = (splitlines_keepends (a ++ NL) ++ splitlines_keepends b)%list)
              /\ forall c,
                splitlines_keepends (String c a ++ NL ++ b)
                = (splitlines_keepends (String c a ++ NL)
                     ++ splitlines_keepends b)%list)
    by apply H.
  induction a as [| c0 a [IH1 IH2]].
  - split; [reflexivity |]. intros c. simpl.
    destruct (Nat.eqb (nat_of_ascii c) 13); [reflexivity |].
    destruct (is_linebreak c); reflexivity.
  - split; [apply IH2 |]. intros c.
    change (String c (String c0 a) ++ NL ++ b)
      with (String c (String c0 (a ++ NL ++ b))).
    change (String c (String c0 a) ++ NL) with (String c (String c0 (a ++ NL))).
    rewrite (splitlines_cons c (String c0 (a ++ NL ++ b))),
      (splitlines_cons c (String c0 (a ++ NL))).
    cbv beta iota.
    specialize (IH2 c0).
    change (String c0 a ++ NL ++ b) with (String c0 (a ++ NL ++ b)) in IH2.
    change (String c0 a ++ NL) with (String c0 (a ++ NL)) in IH2.
    destruct (Nat.eqb (nat_of_ascii c) 13).
    + destruct (Nat.eqb (nat_of_ascii c0) 10).
      * now rewrite IH1.
      * now rewrite IH2.
    + destruct (is_linebreak c).
      * now rewrite IH2.
      * rewrite IH2.
        pose proof (splitlines_nonempty (String c0 (a ++ NL)) eq_refl) as Hne.
        destruct (splitlines_keepends (String c0 (a ++ NL))) as [| l ls];
          [now elim Hne | reflexivity].
Qed.

Lemma join_app (sep : string) (l1 l2 : list string) :
  l1 <> [] -> l2 <> [] ->
  join sep (l1 ++ l2) = join sep l1 ++ sep ++ join sep l2.
Proof.
  intros H1 H2. induction l1 as [| x l1 IH]; [now elim H1 |].
  destruct l1 as [| y l1].
  - simpl. destruct l2; [now elim H2 | reflexivity].
  - change (join sep ((x :: y :: l1) ++ l2))
      with (x ++ sep ++ join sep ((y :: l1) ++ l2)).
    rewrite IH by discriminate.
    change (join sep (x :: y :: l1)) with (x ++ sep ++ join sep (y :: l1)).
    now rewrite !append_assoc.
Qed.

End PyStrFacts.


(** ** The library file locator *)

Section LocatorFacts.
Import PyStr.
Variable env : Env.

(** The name the code compares is the stem the specification describes. *)
Lemma lib_name_of_matching_stem (f : string) :
  lib_name_of env f = matching_stem env f.
Proof.
  unfold lib_name_of, matching_stem, strip_lib_prefix, lib_extensions, str_in.
  destruct (os_path_splitext env f) as [stem ext]. simpl.
  destruct (String.eqb_spec ext ".lib") as [-> | Hlib]; simpl.
  - reflexivity.
  - destruct (ext =? ".so"), (ext =? ".a"), (ext =? ".dylib"), (ext =? ".bc");
      reflexivity.
Qed.

Lemma scan_files_first (libdir : string) (pre : list string) (f : string)
      (post : list string) (lib : string) :
  (forall g, In g pre -> lib_name_of env g <> lib) ->
  lib_name_of env f = lib ->
  scan_files env libdir (pre ++ f :: post) lib = Some (os_path_join env libdir f).
Proof.
  intros Hpre Hf. induction pre as [| g pre IH]; simpl.
  - rewrite Hf, String.eqb_refl. reflexivity.
  - destruct (String.eqb_spec lib (lib_name_of env g)) as [E | _].
    + exfalso. apply (Hpre g); [now left | now symmetry].
    + apply IH. intros h Hh. apply Hpre. now right.
Qed.

Lemma scan_files_none (libdir : string) (files : list string) (lib : string) :
  (forall g, In g files -> lib_name_of env g <> lib) ->
  scan_files env libdir files lib = None.
Proof.
  induction files as [| g files IH]; intros H; simpl; [reflexivity |].
  destruct (String.eqb_spec lib (lib_name_of env g)) as [E | _].
  - exfalso. apply (H g); [now left | now symmetry].
  - apply IH. intros h Hh. apply H. now right.
Qed.

Lemma locator_in_listed_dir (libdir : string) (files rest : list string)
      (lib : string) :
  fs env libdir = Some (Dir files) ->
  _get_lib_file_paths env (libdir :: rest) lib =
    match scan_files env libdir files lib with
    | Some path => ([], inr (Some path))
    | None => _get_lib_file_paths env rest lib
    end.
Proof.
  intros Hfs. simpl. unfold os_path_exists, os_listdir. rewrite Hfs. simpl.
  now rewrite bind_ret_l.
Qed.

(** C5: in a directory that is scanned, the locator goes through the
    file names in the order of the listing and returns the joined path
    of the first one whose stem equals the library name, the stem being
    taken without a leading [lib] for the extensions [.so], [.a],
    [.dylib] and [.bc] and unchanged for [.lib]; when no name of the
    listing matches, the search goes on with the next directories. *)
Theorem locator_returns_first_match (libdir : string) (files rest : list string)
        (lib : string) :
  fs env libdir = Some (Dir files) ->
  (forall f, lib_name_of env f = matching_stem env f)
  /\ (forall pre f post,
         files = (pre ++ f :: post)%list ->
         (forall g, In g pre -> matching_stem env g <> lib) ->
         matching_stem env f = lib ->
         _get_lib_file_paths env (libdir :: rest) lib
           = ([], inr (Some (os_path_join env libdir f))))
  /\ ((forall g, In g files -> matching_stem env g <> lib) ->
      _get_lib_file_paths env (libdir :: rest) lib
        = _get_lib_file_paths env rest lib).
Proof.
  intros Hfs. split; [exact lib_name_of_matching_stem | split].
  - intros pre f post -> Hpre Hf.
    rewrite (locator_in_listed_dir _ _ _ _ Hfs), (scan_files_first libdir pre f post lib).
    + reflexivity.
    + intros g Hg. rewrite lib_name_of_matching_stem. now apply Hpre.
    + now rewrite lib_name_of_matching_stem.
  - intros Hnone.
    rewrite (locator_in_listed_dir _ _ _ _ Hfs), scan_files_none; [reflexivity |].
    intros g Hg. rewrite lib_name_of_matching_stem. now apply Hnone.
Qed.

(** C10: a file whose extension is none of the recognised ones is
    compared by its whole stem, so it matches the library of that
    name; when no earlier name of the listing matches, the locator
    returns its path. *)
Theorem unrecognised_extension_matches_by_stem
        (libdir : string) (pre : list string) (f : string) (post rest : list string)
        (stem ext : string) :
  fs env libdir = Some (Dir (pre ++ f :: post)) ->
  os_path_splitext env f = (stem, ext) ->
  str_in ext lib_extensions = false ->
  (forall g, In g pre -> lib_name_of env g <> stem) ->
  lib_name_of env f = stem
  /\ _get_lib_file_paths env (libdir :: rest) stem
       = ([], inr (Some (os_path_join env libdir f))).
Proof.
  intros Hfs Hsplit Hext Hpre.
  assert (Hname : lib_name_of env f = stem).
  { unfold lib_name_of. now rewrite Hsplit, Hext. }
  split; [exact Hname |].
  rewrite (locator_in_listed_dir _ _ _ _ Hfs), (scan_files_first libdir pre f post stem);
    auto.
Qed.

(** C1, as the code has it: a library directory that does not exist is
    passed over with a warning and the search goes on with the
    directories after it; nothing is raised for it. *)
Theorem missing_libdirs_are_skipped (missing rest : list string) (lib : string) :
  Forall (fun libdir => os_path_exists env libdir = false) missing ->
  _get_lib_file_paths env (missing ++ rest) lib
    = ((map missing_folder_warning missing
          ++ fst (_get_lib_file_paths env rest lib))%list,
       snd (_get_lib_file_paths env rest lib)).
Proof.
  induction 1 as [| libdir missing Hd _ IH]; simpl.
  - now destruct (_get_lib_file_paths env rest lib).
  - rewrite Hd. simpl. unfold warning. rewrite bind_emit, IH. reflexivity.
Qed.

End LocatorFacts.

Lemma locator_returns_first_match_witness :
  _get_lib_file_paths Example.linux ["/pkg/zlib/lib"] "z"
    = ([], inr (Some "/pkg/zlib/lib/libz.a")).
Proof.
  refine (proj1 (proj2 (locator_returns_first_match Example.linux "/pkg/zlib/lib"
                  ["README"; "foo.dll"; "libz.a"; "z.lib"] [] "z" eq_refl))
            ["README"; "foo.dll"] "libz.a" ["z.lib"] eq_refl _ eq_refl).
  intros g [<- | [<- | []]]; vm_compute; discriminate.
Defined.

Lemma unrecognised_extension_matches_by_stem_witness :
  lib_name_of Example.linux "foo.dll" = "foo"
  /\ _get_lib_file_paths Example.linux ["/pkg/zlib/lib"] "foo"
       = ([], inr (Some "/pkg/zlib/lib/foo.dll")).
Proof.
  refine (unrecognised_extension_matches_by_stem Example.linux "/pkg/zlib/lib"
            ["README"] "foo.dll" ["libz.a"; "z.lib"] [] "foo" ".dll"
            eq_refl eq_refl eq_refl _).
  intros g [<- | []]; vm_compute; discriminate.
Defined.

Lemma missing_libdirs_are_skipped_witness :
  _get_lib_file_paths Example.linux ["/pkg/zlib/missing"; "/pkg/zlib/lib"] "z"
    = ([Warning "The library folder doesn't exist: /pkg/zlib/missing"],
       inr (Some "/pkg/zlib/lib/libz.a")).
Proof.
  refine (missing_libdirs_are_skipped Example.linux ["/pkg/zlib/missing"]
            ["/pkg/zlib/lib"] "z" _).
  repeat constructor.
Defined.

(** C1, as the specification states it, fails: the first library
    directory of [zlib] does not exist, its library is searched there,
    and the run returns with a warning and every file written. *)
Lemma missing_libdir_does_not_raise :
  In "/pkg/zlib/missing" (libdirs (cpp_info Example.zlib))
  /\ os_path_exists Example.linux "/pkg/zlib/missing" = false
  /\ In (Warning "The library folder doesn't exist: /pkg/zlib/missing")
        (fst (generate Example.linux Example.project))
  /\ snd (generate Example.linux Example.project) = inr tt
  /\ ~ raises (generate Example.linux Example.project).
Proof.
  split; [now left |].
  split; [reflexivity |].
  split; [vm_compute; right; now left |].
  split; [reflexivity |].
  intros [e He]. vm_compute in He. discriminate.
Qed.

(** ** The walk of [generate] *)

Section Walk.
Import PyStr.
Variable env : Env.
Variable gf : string.

Lemma build_loop_visits (deps : list Dependency) (acc : list string) :
  build_loop gf deps acc
    = (snippets <- visit_in_order env gf (map BuildDep deps) ;;
       ret (acc ++ snippets)%list).
Proof.
  revert acc. induction deps as [| d deps IH]; intros acc; simpl.
  - now rewrite bind_ret_l, app_nil_r.
  - unfold visit_build. rewrite !bind_assoc.
    apply bind_ext; intros filename. rewrite !bind_assoc.
    apply bind_ext; intros snippet. rewrite bind_ret_l, bind_assoc, IH.
    apply bind_ext; intros later. rewrite bind_ret_l.
    now rewrite <- app_assoc.
Qed.

Lemma host_loop_visits (deps : list Dependency) (acc : list string) :
  host_loop env gf deps acc
    = (snippets <- visit_in_order env gf (map HostDep deps) ;;
       ret (acc ++ snippets)%list).
Proof.
  revert acc. induction deps as [| d deps IH]; intros acc; simpl.
  - now rewrite bind_ret_l, app_nil_r.
  - unfold visit_host. rewrite !bind_assoc.
    apply bind_ext; intros [content |].
    + destruct (negb (truthy content)).
      * rewrite bind_ret_l, bind_assoc, IH. apply bind_ext; intros later.
        now rewrite bind_ret_l.
      * rewrite !bind_assoc.
        apply bind_ext; intros filename. rewrite !bind_assoc.
        apply bind_ext; intros snippet. rewrite bind_ret_l, bind_assoc, IH.
        apply bind_ext; intros later. rewrite bind_ret_l.
        now rewrite <- app_assoc.
    + rewrite bind_ret_l, bind_assoc, IH. apply bind_ext; intros later.
      now rewrite bind_ret_l.
Qed.

Lemma visit_in_order_app (vs ws : list visited) :
  visit_in_order env gf (vs ++ ws)
    = (first <- visit_in_order env gf vs ;;
       second <- visit_in_order env gf ws ;;
       ret (first ++ second)%list).
Proof.
  induction vs as [| v vs IH]; simpl.
  - rewrite bind_ret_l. symmetry. apply bind_ret_r.
  - rewrite IH, !bind_assoc. apply bind_ext; intros here.
    rewrite !bind_assoc. apply bind_ext; intros first.
    rewrite bind_ret_l, bind_assoc. apply bind_ext; intros second.
    rewrite !bind_ret_l. now rewrite app_assoc.
Qed.

End Walk.

Lemma generate_walks (env : Env) (conanfile : ConanFile) :
  generate env conanfile
    = (snippets <- visit_in_order env (generators_folder conanfile)
                     (graph_order conanfile) ;;
       _save_main_buildfiles (_get_main_buildfile_content snippets)
         (generators_folder conanfile)).
Proof.
  unfold generate, graph_order.
  rewrite (build_loop_visits env), visit_in_order_app, !bind_assoc.
  apply bind_ext; intros first. rewrite bind_ret_l, (host_loop_visits env), !bind_assoc.
  apply bind_ext; intros second. now rewrite !bind_ret_l.
Qed.

(** ** What the parts of a run save and return *)

Section Traces.
Import PyStr.
Variable env : Env.

Lemma saved_app (t u : list event) : saved (t ++ u) = (saved t ++ saved u)%list.
Proof. apply flat_map_app. Qed.

Lemma fst_bind {A B} (m : M A) (k : A -> M B) :
  fst (bind m k)
    = (fst m ++ match snd m with inr a => fst (k a) | inl _ => [] end)%list.
Proof.
  destruct m as [t [e | a]]; unfold bind; simpl.
  - now rewrite app_nil_r.
  - now destruct (k a).
Qed.

Lemma saved_bind_nil {A B} (m : M A) (k : A -> M B) :
  saved (fst m) = [] -> (forall a, saved (fst (k a)) = []) ->
  saved (fst (bind m k)) = [].
Proof.
  intros Hm Hk. rewrite fst_bind, saved_app, Hm. simpl.
  destruct (snd m); [reflexivity | apply Hk].
Qed.

Lemma locator_saves_nothing (libdirs : list string) (lib : string) :
  saved (fst (_get_lib_file_paths env libdirs lib)) = [].
Proof.
  induction libdirs as [| libdir libdirs IH]; simpl.
  - reflexivity.
  - destruct (negb (os_path_exists env libdir)).
    + apply saved_bind_nil; [reflexivity | intros _; exact IH].
    + apply saved_bind_nil.
      * unfold os_listdir. now destruct (fs env libdir) as [[| entries] |].
      * intros files. now destruct (scan_files env libdir files lib).
Qed.

Lemma locate_libs_saves_nothing (libdirs : list string) (folder : option string)
      (names : list string) (found : list (string * string)) :
  saved (fst (locate_libs env libdirs folder names found)) = [].
Proof.
  revert found. induction names as [| lib names IH]; intros found; simpl.
  - reflexivity.
  - apply saved_bind_nil; [apply locator_saves_nothing |].
    intros [real_path |]; [| apply IH].
    destruct (truthy real_path); [| apply IH].
    apply saved_bind_nil; [reflexivity | intros r; apply IH].
Qed.

Lemma content_saves_nothing (d : Dependency) :
  saved (fst (_get_dependency_buildfile_content env d)) = [].
Proof.
  unfold _get_dependency_buildfile_content.
  match goal with |- context [if ?c then _ else _] => destruct c end;
    [reflexivity |].
  apply saved_bind_nil; [reflexivity | intros rel].
  apply saved_bind_nil; [apply locate_libs_saves_nothing | reflexivity].
Qed.

(** A host dependency without libraries and include directories has
    no content, and finding that out has no effect. *)
Lemma content_skipped (d : Dependency) :
  has_build_info d = false -> _get_dependency_buildfile_content env d = ret None.
Proof.
  unfold has_build_info, _get_dependency_buildfile_content.
  destruct (libs (cpp_info d)), (includedirs (cpp_info d));
    simpl; intros H; (reflexivity || discriminate).
Qed.

Lemma render_truthy (c : Context) : truthy (render c) = true.
Proof. reflexivity. Qed.

(** Any other host dependency, when its content is computed without
    an exception, has a content, and it is not empty. *)
Lemma content_rendered (d : Dependency) (r : option string) :
  has_build_info d = true ->
  snd (_get_dependency_buildfile_content env d) = inr r ->
  exists content, r = Some content /\ truthy content = true.
Proof.
  unfold has_build_info, _get_dependency_buildfile_content.
  intros Hinfo.
  assert (Hcond :
            match libs (cpp_info d) with [] => true | _ :: _ => false end
            && match includedirs (cpp_info d) with [] => true | _ :: _ => false end
            = false).
  { destruct (libs (cpp_info d)), (includedirs (cpp_info d));
      (reflexivity || discriminate). }
  rewrite Hcond. intros H.
  apply bind_inr in H as (rel & _ & H & _).
  apply bind_inr in H as (found & _ & H & _).
  simpl in H. injection H as <-.
  eexists. split; [reflexivity | apply render_truthy].
Qed.

Lemma content_truthy (d : Dependency) (content : string) :
  snd (_get_dependency_buildfile_content env d) = inr (Some content) ->
  truthy content = true.
Proof.
  intros H. destruct (has_build_info d) eqn:Hinfo.
  - destruct (content_rendered d _ Hinfo H) as (c & Hc & Ht).
    now injection Hc as ->.
  - rewrite (content_skipped d Hinfo) in H. discriminate.
Qed.

Variable gf : string.

Lemma visit_returns (v : visited) (snippets : list string) :
  snd (visit env gf v) = inr snippets ->
  saved (fst (visit env gf v)) = map (file_of gf) (written_for env v)
  /\ Forall2 (is_snippet_of gf) (written_for env v) snippets.
Proof.
  destruct v as [d | d]; simpl.
  - unfold visit_build, _save_dependency_buildfile, _create_new_local_repository,
      save, bind.
    simpl. destruct (package_folder d) as [folder |] eqn:Hf; [| discriminate].
    simpl. intros H. injection H as <-. split; [reflexivity |].
    constructor; [| constructor]. exists folder. split; [exact Hf | reflexivity].
  - unfold visit_host, host_content.
    pose proof (content_saves_nothing d) as Hsaved.
    pose proof (content_truthy d) as Htruthy.
    destruct (_get_dependency_buildfile_content env d) as [t [e | [content |]]];
      simpl in *.
    + discriminate.
    + unfold _save_dependency_buildfile, _create_new_local_repository, save, bind.
      simpl. rewrite (Htruthy content eq_refl). simpl.
      destruct (package_folder d) as [folder |] eqn:Hf; [| discriminate].
      simpl. intros H. injection H as <-. split.
      * rewrite saved_app, Hsaved. reflexivity.
      * constructor; [| constructor]. exists folder. split; [exact Hf | reflexivity].
    + unfold bind. simpl. intros H. injection H as <-. split; [| constructor].
      now rewrite app_nil_r.
Qed.

Lemma visit_in_order_returns (vs : list visited) (snippets : list string) :
  snd (visit_in_order env gf vs) = inr snippets ->
  saved (fst (visit_in_order env gf vs))
    = map (file_of gf) (flat_map (written_for env) vs)
  /\ Forall2 (is_snippet_of gf) (flat_map (written_for env) vs) snippets
  /\ snippets = concat (map (snippets_of env gf) vs).
Proof.
  revert snippets. induction vs as [| v vs IH]; intros snippets; simpl.
  - intros H. injection H as <-. repeat split. constructor.
  - intros H.
    apply bind_inr in H as (here & Hhere & H & Ht).
    apply bind_inr in H as (later & Hlater & H & Ht').
    simpl in H. injection H as <-.
    destruct (visit_returns v here Hhere) as [Hs1 Hf1].
    destruct (IH later Hlater) as (Hs2 & Hf2 & Hc2).
    rewrite Ht, Ht'. simpl. rewrite app_nil_r, saved_app, Hs1, Hs2, map_app.
    split; [reflexivity |]. split.
    + now apply Forall2_app.
    + unfold snippets_of at 1. rewrite Hhere. now rewrite <- Hc2.
Qed.

End Traces.

(** ** Runs of [generate] *)

Section Runs.
Import PyStr.
Variable env : Env.

Lemma generate_of_walk (conanfile : ConanFile) (trace : list event)
      (snippets : list string) :
  visit_in_order env (generators_folder conanfile) (graph_order conanfile)
    = (trace, inr snippets) ->
  generate env conanfile
    = ((trace ++ [Save (generators_folder conanfile ++ "/BUILD") EmptyString;
                  Save (generators_folder conanfile ++ "/dependencies.bzl")
                       (_get_main_buildfile_content snippets)])%list,
       inr tt).
Proof. intros H. rewrite generate_walks, H. reflexivity. Qed.

Lemma generate_returns (conanfile : ConanFile) :
  snd (generate env conanfile) = inr tt ->
  exists trace snippets,
    visit_in_order env (generators_folder conanfile) (graph_order conanfile)
      = (trace, inr snippets).
Proof.
  rewrite generate_walks. intros H.
  apply bind_inr in H as (snippets & Hs & _).
  destruct (visit_in_order env _ _) as [trace r]. simpl in Hs. subst r.
  now exists trace, snippets.
Qed.

Lemma visit_at_most_one_snippet (gf : string) (v : visited) :
  length (snippets_of env gf v) <= 1.
Proof.
  unfold snippets_of.
  destruct (snd (visit env gf v)) as [e | l] eqn:H; [simpl; lia |].
  destruct (visit_returns env gf v l H) as [_ HF].
  rewrite <- (Forall2_length HF).
  destruct v as [d | d]; simpl; [lia |].
  destruct (host_content env d); simpl; lia.
Qed.

Lemma visit_in_order_skip (gf : string) (vs : list visited) (v : visited)
      (ws : list visited) :
  visit env gf v = ret [] ->
  visit_in_order env gf (vs ++ v :: ws) = visit_in_order env gf (vs ++ ws).
Proof.
  intros Hv. induction vs as [| u vs IH]; simpl.
  - rewrite Hv, bind_ret_l. apply bind_ret_r.
  - now rewrite IH.
Qed.

(** C9: a host dependency whose aggregated [cpp_info] has no libraries
    and no include directories has no content, which is found out
    without an exception and without an effect; the run is the run of
    the graph without that dependency, so no file is written for it
    and no snippet is registered for it. *)
Theorem empty_host_dependency_is_skipped
        (gf : string) (build before : list Dependency) (d : Dependency)
        (after : list Dependency) :
  libs (cpp_info d) = [] ->
  includedirs (cpp_info d) = [] ->
  _get_dependency_buildfile_content env d = ([], inr None)
  /\ written_for env (HostDep d) = []
  /\ snippets_of env gf (HostDep d) = []
  /\ generate env (mkConanFile gf build (before ++ d :: after))
       = generate env (mkConanFile gf build (before ++ after)).
Proof.
  intros Hlibs Hinc.
  assert (Hinfo : has_build_info d = false).
  { unfold has_build_info. now rewrite Hlibs, Hinc. }
  pose proof (content_skipped env d Hinfo) as Hc.
  assert (Hv : visit env gf (HostDep d) = ret []).
  { simpl. unfold visit_host. now rewrite Hc, bind_ret_l. }
  split; [exact Hc |]. split; [| split].
  - simpl. unfold host_content. now rewrite Hc.
  - unfold snippets_of. now rewrite Hv.
  - rewrite !generate_walks. unfold graph_order. simpl.
    rewrite !map_app. simpl. rewrite !app_assoc.
    now rewrite (visit_in_order_skip gf _ (HostDep d) _ Hv).
Qed.

(** C2: when the walk reaches a host dependency that has a non-empty
    content and no package folder, the run ends there with the
    exception "BazelDeps doesn't support editable packages": the file
    of the dependency is the last thing saved, no snippet is made for
    it and the entry-point files are not written.  In every case
    [generate] raises. *)
Theorem editable_host_dependency_raises
        (conanfile : ConanFile) (before : list Dependency) (d : Dependency)
        (after : list Dependency) (trace : list event) (content : string) :
  let gf := generators_folder conanfile in
  host conanfile = (before ++ d :: after)%list ->
  package_folder d = None ->
  _get_dependency_buildfile_content env d = (trace, inr (Some content)) ->
  truthy content = true ->
  raises (generate env conanfile)
  /\ (forall earlier snippets,
        visit_in_order env gf
          (map BuildDep (direct_build conanfile) ++ map HostDep before)
          = (earlier, inr snippets) ->
        generate env conanfile
          = ((earlier ++ trace
                ++ [Save (buildfile_path gf (ref_name d)) content])%list,
             inl (ConanException "BazelDeps doesn't support editable packages"))).
Proof.
  intros gf Hhost Hfolder Hcontent Htruthy.
  assert (Hv : visit env gf (HostDep d)
               = ((trace ++ [Save (buildfile_path gf (ref_name d)) content])%list,
                  inl (ConanException "BazelDeps doesn't support editable packages"))).
  { simpl. unfold visit_host, _save_dependency_buildfile,
      _create_new_local_repository, save.
    rewrite Hcontent, Hfolder. unfold bind. simpl. rewrite Htruthy. reflexivity. }
  assert (Hwalk : forall earlier snippets,
             visit_in_order env gf
               (map BuildDep (direct_build conanfile) ++ map HostDep before)
               = (earlier, inr snippets) ->
             generate env conanfile
               = ((earlier ++ trace
                     ++ [Save (buildfile_path gf (ref_name d)) content])%list,
                  inl (ConanException "BazelDeps doesn't support editable packages"))).
  { intros earlier snippets He.
    rewrite generate_walks. unfold graph_order. rewrite Hhost, map_app, app_assoc.
    fold gf. rewrite visit_in_order_app, He, bind_returned.
    cbn [visit_in_order map]. rewrite Hv. reflexivity. }
  split; [| exact Hwalk].
  destruct (visit_in_order env gf
              (map BuildDep (direct_build conanfile) ++ map HostDep before))
    as [earlier [e | snippets]] eqn:He.
  - exists e. rewrite generate_walks. unfold graph_order.
    rewrite Hhost, map_app, app_assoc. fold gf.
    rewrite visit_in_order_app, He. reflexivity.
  - eexists. rewrite (Hwalk _ _ eq_refl). reflexivity.
Qed.

End Runs.

Lemma empty_host_dependency_is_skipped_witness :
  generate Example.linux (mkConanFile "/gen" [Example.cmake] ([] ++ Example.meta :: [Example.zlib]))
    = generate Example.linux (mkConanFile "/gen" [Example.cmake] ([] ++ [Example.zlib])).
Proof.
  exact (proj2 (proj2 (proj2
    (empty_host_dependency_is_skipped Example.linux "/gen" [Example.cmake] []
       Example.meta [Example.zlib] eq_refl eq_refl)))).
Defined.

Lemma editable_host_dependency_raises_witness :
  raises (generate Example.linux Example.with_editable)
  /\ snd (generate Example.linux Example.with_editable)
     = inl (ConanException "BazelDeps doesn't support editable packages").
Proof.
  pose proof (editable_host_dependency_raises Example.linux Example.with_editable
                [Example.zlib] Example.editable [Example.meta]
                [Warning "The library local cannot be found in the dependency"]
                _ eq_refl eq_refl eq_refl eq_refl) as [Hraises Hwalk].
  split; [exact Hraises |].
  now rewrite (Hwalk _ _ eq_refl).
Defined.

(** ** The text of the entry-point file *)

Section EntryPoint.
Import PyStr PyStrFacts.

Lemma ends_with_newline_truthy (s : string) : ends_with_newline s -> truthy s = true.
Proof. intros [a ->]. now destruct a. Qed.

Lemma join_truthy (sep x : string) (rest : list string) :
  truthy x = true -> truthy (join sep (x :: rest)) = true.
Proof.
  intros H. simpl. destruct rest; [exact H | now apply truthy_app_l].
Qed.

(** Splitting the joined snippets into lines and putting four spaces
    before every line indents each snippet, and the newline that
    joins two snippets becomes an indented empty line. *)
Lemma indented_function_content (snippets : list string) :
  Forall ends_with_newline snippets -> snippets <> [] ->
  "    " ++ join "    " (splitlines_keepends (join NL snippets))
    = join ("    " ++ NL) (map indent snippets).
Proof.
  induction 1 as [| s rest Hs Hrest IH]; intros Hne; [now elim Hne |].
  destruct rest as [| y rest]; [reflexivity |].
  change (join NL (s :: y :: rest)) with (s ++ NL ++ join NL (y :: rest)).
  change (join ("    " ++ NL) (map indent (s :: y :: rest)))
    with (indent s ++ ("    " ++ NL) ++ join ("    " ++ NL) (map indent (y :: rest))).
  rewrite <- IH by discriminate.
  destruct Hs as [a ->].
  rewrite append_assoc, splitlines_app_newline, splitlines_newline.
  assert (Hy : truthy (join NL (y :: rest)) = true).
  { apply join_truthy, ends_with_newline_truthy. now inversion Hrest. }
  pose proof (splitlines_nonempty _ Hy) as HJ.
  assert (Ha : splitlines_keepends (a ++ NL) <> []).
  { apply splitlines_nonempty. now destruct a. }
  rewrite join_app; [| exact Ha | discriminate].
  destruct (splitlines_keepends (join NL (y :: rest))) as [| l ls];
    [now elim HJ |].
  unfold indent.
  change (join "    " (NL :: l :: ls)) with (NL ++ "    " ++ join "    " (l :: ls)).
  now rewrite !append_assoc.
Qed.

Lemma snippet_format_ends_with_newline (name path build_file : string) :
  ends_with_newline (snippet_format name path build_file).
Proof.
  exists (NL ++ "native.new_local_repository(" ++ NL ++
          "    name=" ++ DQ ++ name ++ DQ ++ "," ++ NL ++
          "    path=" ++ DQ ++ path ++ DQ ++ "," ++ NL ++
          "    build_file=" ++ DQ ++ build_file ++ DQ ++ "," ++ NL ++ ")").
  unfold snippet_format. now rewrite !append_assoc.
Qed.

Lemma main_buildfile_text (snippets : list string) :
  Forall ends_with_newline snippets ->
  _get_main_buildfile_content snippets
    = NL ++ "def load_conan_dependencies():" ++ NL ++ function_text snippets ++ NL.
Proof.
  intros H. unfold _get_main_buildfile_content, function_text.
  destruct snippets as [| s rest]; [reflexivity |].
  rewrite <- (indented_function_content (s :: rest) H) by discriminate.
  now rewrite !append_assoc.
Qed.

Lemma snippets_end_with_newline (gf : string) (ws : list (Dependency * string))
      (snippets : list string) :
  Forall2 (is_snippet_of gf) ws snippets -> Forall ends_with_newline snippets.
Proof.
  induction 1 as [| dc s ws snippets (folder & _ & ->) _ IH]; constructor;
    [apply snippet_format_ends_with_newline | exact IH].
Qed.

Lemma forward_slashes_replace (s : string) :
  replace backslash "/" s = forward_slashes s.
Proof.
  induction s as [| c s IH]; simpl; [reflexivity |].
  destruct (Ascii.eqb c backslash); now rewrite IH.
Qed.

(** The snippet the code formats is the registration. *)
Lemma snippet_format_registration (name path build_file : string) :
  snippet_format name path build_file = registration name path build_file.
Proof.
  unfold snippet_format, registration, line.
  now rewrite !append_assoc.
Qed.

Lemma snippets_are_registrations (gf : string) (ws : list (Dependency * string))
      (snippets : list string) :
  Forall2 (is_snippet_of gf) ws snippets ->
  Forall2 (is_registration_of gf) ws snippets.
Proof.
  induction 1 as [| dc s ws snippets (folder & Hf & ->) _ IH]; constructor;
    [| exact IH].
  exists folder. split; [exact Hf |].
  now rewrite snippet_format_registration, !forward_slashes_replace.
Qed.

Lemma main_buildfile_entry_point_text (snippets : list string) :
  Forall ends_with_newline snippets ->
  _get_main_buildfile_content snippets = entry_point_text snippets.
Proof.
  intros H. rewrite (main_buildfile_text snippets H).
  unfold entry_point_text, line. now rewrite !append_assoc.
Qed.

End EntryPoint.

(** ** The files of a run that returns *)

Section Files.
Import PyStr.
Variable env : Env.

Lemma in_saved (trace : list event) (filename content : string) :
  In (filename, content) (saved trace) -> In (Save filename content) trace.
Proof.
  unfold saved. intros H. apply in_flat_map in H as (e & He & H).
  destruct e as [f c | msg]; simpl in H; [| contradiction].
  destruct H as [H | []]. now injection H as -> ->.
Qed.

Lemma visit_in_order_each (gf : string) (vs : list visited) (snippets : list string) :
  snd (visit_in_order env gf vs) = inr snippets ->
  Forall (fun v => exists l, snd (visit env gf v) = inr l) vs.
Proof.
  revert snippets. induction vs as [| v vs IH]; intros snippets H; constructor.
  - simpl in H. apply bind_inr in H as (here & Hhere & _). now exists here.
  - simpl in H. apply bind_inr in H as (here & _ & H & _).
    apply bind_inr in H as (later & Hlater & _). now apply (IH later).
Qed.

Lemma host_visit_written (gf : string) (d : Dependency) (l : list string) :
  snd (visit env gf (HostDep d)) = inr l ->
  has_build_info d = true ->
  exists content,
    snd (_get_dependency_buildfile_content env d) = inr (Some content)
    /\ written_for env (HostDep d) = [(d, content)].
Proof.
  simpl. unfold visit_host. intros H Hinfo.
  apply bind_inr in H as (r & Hr & _).
  destruct (content_rendered env d r Hinfo Hr) as (content & -> & Ht).
  exists content. split; [exact Hr |].
  simpl. unfold host_content. now rewrite Hr, Ht.
Qed.

Lemma host_visit_unwritten (d : Dependency) :
  has_build_info d = false -> written_for env (HostDep d) = [].
Proof.
  intros Hinfo. simpl. unfold host_content.
  now rewrite (content_skipped env d Hinfo).
Qed.

Lemma written_build_length (deps : list Dependency) :
  length (flat_map (written_for env) (map BuildDep deps)) = length deps.
Proof. induction deps as [| d deps IH]; simpl; [reflexivity | now rewrite IH]. Qed.

Lemma written_host_length (gf : string) (deps : list Dependency) :
  Forall (fun v => exists l, snd (visit env gf v) = inr l) (map HostDep deps) ->
  length (flat_map (written_for env) (map HostDep deps))
    = length (filter has_build_info deps).
Proof.
  induction deps as [| d deps IH]; intros H; [reflexivity |].
  inversion H as [| v vs [l Hl] Hrest]; subst.
  cbn [map flat_map filter]. rewrite length_app, (IH Hrest).
  destruct (has_build_info d) eqn:Hinfo.
  - destruct (host_visit_written gf d l Hl Hinfo) as (content & _ & ->).
    reflexivity.
  - now rewrite (host_visit_unwritten d Hinfo).
Qed.

(** A run that returns has saved the files of the dependencies that
    get one, in the order of the walk, and then the two files of the
    entry point. *)
Lemma generate_saved (conanfile : ConanFile) :
  let gf := generators_folder conanfile in
  snd (generate env conanfile) = inr tt ->
  exists snippets,
    Forall2 (is_snippet_of gf) (written env conanfile) snippets
    /\ Forall (fun v => exists l, snd (visit env gf v) = inr l) (graph_order conanfile)
    /\ saved (fst (generate env conanfile))
       = List.app (map (file_of gf) (written env conanfile))
            [(gf ++ "/BUILD", EmptyString);
                (gf ++ "/dependencies.bzl", _get_main_buildfile_content snippets)].
Proof.
  intros gf H. destruct (generate_returns env conanfile H) as (trace & snippets & E).
  assert (Hs : snd (visit_in_order env gf (graph_order conanfile)) = inr snippets)
    by (unfold gf; now rewrite E).
  destruct (visit_in_order_returns env gf _ _ Hs) as (Hsaved & Hsnip & _).
  exists snippets. split; [exact Hsnip |]. split.
  - exact (visit_in_order_each gf _ _ Hs).
  - rewrite (generate_of_walk env conanfile trace snippets E). simpl.
    rewrite saved_app. unfold gf in Hsaved. rewrite E in Hsaved. simpl in Hsaved.
    now rewrite Hsaved.
Qed.

(** C3, as the code has it: a run that returns has written one BUILD
    file for each direct build dependency and for each host dependency
    that has libraries or include directories, at the path
    <generators_folder>/<name>/BUILD, which depends on the dependency
    through its name alone; these and the two files of the entry point
    are all the files written, so a host dependency with neither
    libraries nor include directories gets none. *)
Theorem dependency_buildfiles (conanfile : ConanFile) :
  let gf := generators_folder conanfile in
  snd (generate env conanfile) = inr tt ->
  (forall d, In d (direct_build conanfile) ->
     In (Save (buildfile_path gf (ref_name d))
              (_get_build_dependency_buildfile_content d))
        (fst (generate env conanfile)))
  /\ (forall d, In d (host conanfile) -> has_build_info d = true ->
        exists content,
          snd (_get_dependency_buildfile_content env d) = inr (Some content)
          /\ In (Save (buildfile_path gf (ref_name d)) content)
                (fst (generate env conanfile)))
  /\ (exists main,
        saved (fst (generate env conanfile))
        = List.app (map (file_of gf) (written env conanfile))
             [(gf ++ "/BUILD", EmptyString);
                 (gf ++ "/dependencies.bzl", main)])
  /\ length (written env conanfile)
     = length (direct_build conanfile)
       + length (filter has_build_info (host conanfile)).
Proof.
  intros gf H.
  destruct (generate_saved conanfile H) as (snippets & _ & Heach & Hsaved).
  fold gf in Heach, Hsaved.
  assert (Hin : forall d content,
             In (d, content) (written env conanfile) ->
             In (Save (buildfile_path gf (ref_name d)) content)
                (fst (generate env conanfile))).
  { intros d content Hd. apply in_saved. rewrite Hsaved.
    apply in_or_app. left.
    exact (in_map (file_of gf) _ _ Hd). }
  unfold graph_order in Heach. apply Forall_app in Heach as [_ Hhost].
  split; [| split; [| split]].
  - intros d Hd. apply Hin. unfold written, graph_order.
    rewrite flat_map_app. apply in_or_app. left.
    apply in_flat_map. exists (BuildDep d). split; [now apply in_map | now left].
  - intros d Hd Hinfo.
    assert (Hv : exists l, snd (visit env gf (HostDep d)) = inr l).
    { rewrite Forall_forall in Hhost. apply Hhost. now apply in_map. }
    destruct Hv as [l Hl].
    destruct (host_visit_written gf d l Hl Hinfo) as (content & Hc & Hw).
    exists content. split; [exact Hc |].
    apply Hin. unfold written, graph_order.
    rewrite flat_map_app. apply in_or_app. right.
    apply in_flat_map. exists (HostDep d). split; [now apply in_map |].
    rewrite Hw. now left.
  - now exists (_get_main_buildfile_content snippets).
  - unfold written, graph_order.
    rewrite flat_map_app, length_app, written_build_length.
    now rewrite (written_host_length gf _ Hhost).
Qed.


End Files.

Lemma dependency_buildfiles_witness :
  In (Save "/gen/cmake/BUILD" (_get_build_dependency_buildfile_content Example.cmake))
     (fst (generate Example.linux Example.project))
  /\ length (written Example.linux Example.project) = 2.
Proof.
  pose proof (dependency_buildfiles Example.linux Example.project eq_refl) as H.
  split.
  - exact (proj1 H Example.cmake (or_introl eq_refl)).
  - exact (proj2 (proj2 (proj2 H))).
Defined.



(** C3, as the specification states it, fails: [meta] is a host
    dependency of a graph on which the run returns, and no file is
    written at its path. *)
Lemma skipped_dependency_has_no_buildfile :
  In Example.meta (host Example.only_meta)
  /\ snd (generate Example.linux Example.only_meta) = inr tt
  /\ forall content,
       ~ In (Save (buildfile_path (generators_folder Example.only_meta)
                                  (ref_name Example.meta)) content)
            (fst (generate Example.linux Example.only_meta)).
Proof.
  split; [now left |]. split; [reflexivity |].
  intros content H. vm_compute in H.
  destruct H as [H | [H | []]]; discriminate.
Qed.

(** ** Determinism *)

Section Determinism.
Import PyStr.
Variables env env' : Env.
Hypothesis same_splitext : forall f, os_path_splitext env f = os_path_splitext env' f.
Hypothesis same_join : forall a b, os_path_join env a b = os_path_join env' a b.
Hypothesis same_platform : platform_system env = platform_system env'.

Lemma lib_name_of_same (f : string) : lib_name_of env f = lib_name_of env' f.
Proof. unfold lib_name_of. now rewrite same_splitext. Qed.

Lemma scan_files_same (libdir : string) (files : list string) (lib : string) :
  scan_files env libdir files lib = scan_files env' libdir files lib.
Proof.
  induction files as [| f files IH]; simpl; [reflexivity |].
  now rewrite lib_name_of_same, same_join, IH.
Qed.

Lemma locator_same (libdirs : list string) (lib : string) :
  (forall libdir, In libdir libdirs -> fs env libdir = fs env' libdir) ->
  _get_lib_file_paths env libdirs lib = _get_lib_file_paths env' libdirs lib.
Proof.
  induction libdirs as [| libdir libdirs IH]; intros Hfs; simpl; [reflexivity |].
  unfold os_path_exists, os_listdir.
  rewrite (Hfs libdir (or_introl eq_refl)), IH by (intros; apply Hfs; now right).
  destruct (fs env' libdir) as [[| entries] |]; simpl; try reflexivity.
  apply bind_ext. intros files. now rewrite scan_files_same.
Qed.

Lemma locate_libs_same (libdirs : list string) (folder : option string)
      (names : list string) (found : list (string * string)) :
  (forall libdir, In libdir libdirs -> fs env libdir = fs env' libdir) ->
  locate_libs env libdirs folder names found
    = locate_libs env' libdirs folder names found.
Proof.
  intros Hfs. revert found.
  induction names as [| lib names IH]; intros found; simpl; [reflexivity |].
  rewrite (locator_same libdirs lib Hfs).
  apply bind_ext. intros [real_path |]; [| apply IH].
  destruct (truthy real_path); [| apply IH].
  apply bind_ext. intros r. apply IH.
Qed.

Lemma format_linkopt_same (system_lib : string) :
  format_linkopt env system_lib = format_linkopt env' system_lib.
Proof. unfold format_linkopt. now rewrite same_platform. Qed.

Lemma content_same (d : Dependency) :
  (forall libdir, In libdir (libdirs (cpp_info d)) -> fs env libdir = fs env' libdir) ->
  _get_dependency_buildfile_content env d = _get_dependency_buildfile_content env' d.
Proof.
  intros Hfs. unfold _get_dependency_buildfile_content.
  match goal with |- context [if ?c then _ else _] => destruct c end;
    [reflexivity |].
  apply bind_ext. intros rel.
  rewrite (locate_libs_same _ _ _ _ Hfs).
  rewrite (map_ext _ _ format_linkopt_same).
  reflexivity.
Qed.

Lemma host_loop_same (gf : string) (deps : list Dependency) (acc : list string) :
  (forall d libdir, In d deps -> In libdir (libdirs (cpp_info d)) ->
                    fs env libdir = fs env' libdir) ->
  host_loop env gf deps acc = host_loop env' gf deps acc.
Proof.
  revert acc. induction deps as [| d deps IH]; intros acc Hfs; simpl; [reflexivity |].
  rewrite (content_same d) by (intros; apply (Hfs d); [now left | assumption]).
  assert (IH' : forall acc, host_loop env gf deps acc = host_loop env' gf deps acc).
  { intros acc'. apply IH. intros d' libdir Hd'. apply Hfs. now right. }
  apply bind_ext. intros [content |]; [| apply IH'].
  destruct (negb (truthy content)); [apply IH' |].
  apply bind_ext. intros filename. apply bind_ext. intros snippet. apply IH'.
Qed.

End Determinism.

(** C6: two runs over the same graph, with the same [os.path]
    functions, the same platform and the same listing of every library
    directory of the graph, save the same files with the same contents
    in the same order, print the same warnings and end the same way. *)
Theorem generate_deterministic (env env' : Env) (conanfile : ConanFile) :
  same_inputs env env' conanfile ->
  generate env conanfile = generate env' conanfile.
Proof.
  intros (Hsplit & Hjoin & Hplatform & Hfs). unfold generate.
  apply bind_ext. intros built.
  now rewrite (host_loop_same env env' Hsplit Hjoin Hplatform _ _ _ Hfs).
Qed.

Lemma generate_deterministic_witness :
  Example.disk "/tmp" <> Example.disk' "/tmp"
  /\ generate Example.linux Example.project = generate Example.linux' Example.project.
Proof.
  split; [discriminate |].
  apply generate_deterministic.
  split; [reflexivity |]. split; [reflexivity |]. split; [reflexivity |].
  intros d libdir [<- | [<- | []]]; simpl; [contradiction |].
  intros [<- | [<- | []]]; reflexivity.
Defined.


(** * Further properties of the generator *)

(** ** More on strings *)

Module PyStrMore.
Import PyStr PyStrFacts.

Lemma length_append (s t : string) :
  String.length (s ++ t) = String.length s + String.length t.
Proof. induction s as [| c s IH]; simpl; [reflexivity | now rewrite IH]. Qed.

Lemma append_cancel_l (s t u : string) : s ++ t = s ++ u -> t = u.
Proof.
  induction s as [| c s IH]; simpl; intros H; [exact H |].
  injection H as H. now apply IH.
Qed.

Lemma append_cancel_r (s t u : string) : t ++ s = u ++ s -> t = u.
Proof.
  revert u. induction t as [| c t IH]; intros u H.
  - destruct u as [| c' u]; [reflexivity |].
    apply (f_equal String.length) in H. simpl in H.
    rewrite length_append in H. lia.
  - destruct u as [| c' u].
    + apply (f_equal String.length) in H. simpl in H.
      rewrite length_append in H. lia.
    + simpl in H. injection H as -> H. f_equal. now apply IH.
Qed.

(** Replacing a character that does not occur changes nothing. *)
Lemma replace_absent (a : ascii) (r s : string) :
  has_char a s = false -> replace a r s = s.
Proof.
  induction s as [| c s IH]; simpl; [reflexivity |].
  intros H. apply orb_false_iff in H as [H1 H2].
  now rewrite H1, IH.
Qed.

Lemma lstrip_no_lead_id (c : ascii) (s : string) :
  startswith s (String c EmptyString) = false -> lstrip c s = s.
Proof.
  unfold startswith. destruct s as [| c' s]; simpl; [reflexivity |].
  destruct (ascii_dec c c') as [-> | n].
  - destruct s; discriminate.
  - intros _. destruct (Ascii.eqb_spec c' c) as [-> | _]; [now elim n | reflexivity].
Qed.

Lemma append_empty_r (s : string) : s ++ EmptyString = s.
Proof. induction s as [| c s IH]; simpl; [reflexivity | now rewrite IH]. Qed.

Lemma slice_to_app (s t : string) : slice_to (String.length s) (s ++ t) = s.
Proof. induction s as [| c s IH]; simpl; [now destruct t | now rewrite IH]. Qed.

Lemma slice_to_from (n : nat) (s : string) : slice_to n s ++ slice_from n s = s.
Proof.
  revert s. induction n as [| n IH]; intros s; [reflexivity |].
  destruct s as [| c s]; simpl; [reflexivity | now rewrite IH].
Qed.

Lemma endswith_char_app (s t : string) (c : ascii) :
  truthy t = true ->
  OsPath.endswith_char (s ++ t) c = OsPath.endswith_char t c.
Proof.
  intros Ht. induction s as [| c' s IH]; [reflexivity |].
  simpl. destruct (s ++ t) eqn:E; [| exact IH].
  destruct s; [| discriminate]. simpl in E. now rewrite E in Ht.
Qed.

(** Every text that holds a character splits at its last occurrence. *)
Lemma last_occurrence (c : ascii) (s : string) :
  has_char c s = true ->
  exists a b, s = a ++ String c b /\ has_char c b = false.
Proof.
  induction s as [| c' s IH]; simpl; [discriminate |].
  destruct (has_char c s) eqn:Hs.
  - intros _. destruct (IH eq_refl) as (a & b & -> & Hb).
    now exists (String c' a), b.
  - rewrite orb_false_r. intros H. apply Ascii.eqb_eq in H as ->.
    now exists EmptyString, s.
Qed.

End PyStrMore.

(** ** [splitext] *)

Module OsPathFacts.
Import PyStr PyStrFacts PyStrMore OsPath.

Lemma rfind_from_absent (c : ascii) (s : string) (i acc : Z) :
  has_char c s = false -> rfind_from c s i acc = acc.
Proof.
  revert i acc. induction s as [| c' s IH]; intros i acc; simpl; [reflexivity |].
  intros H. apply orb_false_iff in H as [H1 H2].
  now rewrite H1, IH.
Qed.

Lemma rfind_from_last (c : ascii) (a b : string) (i acc : Z) :
  has_char c b = false ->
  rfind_from c (a ++ String c b) i acc = (i + Z.of_nat (String.length a))%Z.
Proof.
  intros Hb. revert i acc. induction a as [| c' a IH]; intros i acc.
  - simpl. rewrite Ascii.eqb_refl, (rfind_from_absent c b _ _ Hb). lia.
  - simpl String.append. cbn [rfind_from]. rewrite IH. simpl String.length. lia.
Qed.

Lemma rfind_absent (c : ascii) (s : string) :
  has_char c s = false -> rfind c s = (-1)%Z.
Proof. apply rfind_from_absent. Qed.

Lemma rfind_last (c : ascii) (a b : string) :
  has_char c b = false -> rfind c (a ++ String c b) = Z.of_nat (String.length a).
Proof. intros Hb. unfold rfind. now rewrite rfind_from_last. Qed.

Lemma rfind_lower_bound (c : ascii) (s : string) : (-1 <= rfind c s)%Z.
Proof.
  destruct (has_char c s) eqn:H.
  - destruct (last_occurrence c s H) as (a & b & -> & Hb).
    rewrite (rfind_last c a b Hb). lia.
  - rewrite (rfind_absent c s H). lia.
Qed.

Lemma splitext_loop_result (n : nat) (p : string) (i j : Z) (r : string * string) :
  _splitext_loop n p i j = Some r ->
  r = (slice_to (Z.to_nat j) p, slice_from (Z.to_nat j) p).
Proof.
  revert i. induction n as [| n IH]; intros i; simpl; [discriminate |].
  destruct (i <? j)%Z; [| discriminate].
  destruct (String.get (Z.to_nat i) p) as [c |].
  - destruct (negb (Ascii.eqb c dot)); [now intros [= <-] | apply IH].
  - now intros [= <-].
Qed.

(** X1: [splitext] cuts its argument in two without losing a character:
    the two parts put together are the argument, and the extension is
    empty or is a dot followed by a text without a dot. *)
Theorem splitext_parts (p : string) (sep : ascii) (altsep : option ascii) :
  fst (_splitext p sep altsep) ++ snd (_splitext p sep altsep) = p
  /\ (snd (_splitext p sep altsep) = EmptyString
      \/ exists e, snd (_splitext p sep altsep) = String dot e
                   /\ has_char dot e = false).
Proof.
  unfold _splitext.
  set (sepIndex := match altsep with
                   | Some a => Z.max (rfind sep p) (rfind a p)
                   | None => rfind sep p
                   end).
  assert (Hsep : (-1 <= sepIndex)%Z).
  { unfold sepIndex. pose proof (rfind_lower_bound sep p).
    destruct altsep; lia. }
  destruct (rfind dot p >? sepIndex)%Z eqn:Hgt;
    [| split; [apply PyStrMore.append_empty_r | now left]].
  destruct (_splitext_loop _ p (sepIndex + 1) (rfind dot p)) as [r |] eqn:Hloop;
    [| split; [apply PyStrMore.append_empty_r | now left]].
  apply splitext_loop_result in Hloop. subst r. simpl.
  split; [apply slice_to_from |]. right.
  destruct (has_char dot p) eqn:Hdot.
  - destruct (last_occurrence dot p Hdot) as (a & b & -> & Hb).
    rewrite (rfind_last dot a b Hb), Nat2Z.id, slice_from_app.
    now exists b.
  - rewrite (rfind_absent dot p Hdot) in Hgt. lia.
Qed.

End OsPathFacts.

(** ** File names of libraries *)

Section LibraryNames.
Import PyStr PyStrFacts PyStrMore OsPath OsPathFacts.

(** A name that does not begin with a dot and holds no slash, followed
    by a dot and an extension without dot or slash, is split at that
    dot by [posixpath.splitext]. *)
Lemma posix_splitext_stem (c0 : ascii) (s0 e : string) :
  Ascii.eqb c0 dot = false ->
  has_char slash (String c0 s0) = false ->
  has_char dot e = false ->
  has_char slash e = false ->
  posix_splitext (String c0 s0 ++ String dot e) = (String c0 s0, String dot e).
Proof.
  intros Hc0 Hstem He Hes. unfold posix_splitext, _splitext.
  assert (Hslash : has_char slash (String c0 s0 ++ String dot e) = false).
  { rewrite has_char_app, Hstem. simpl. exact Hes. }
  rewrite (rfind_absent slash _ Hslash), (rfind_last dot (String c0 s0) e He).
  set (stem := String c0 s0).
  assert (Hlen : String.length stem = S (String.length s0)) by reflexivity.
  assert (Hgt : (Z.of_nat (String.length stem) >? -1)%Z = true)
    by (apply Z.gtb_lt; lia).
  rewrite Hgt.
  replace (Z.to_nat (Z.of_nat (String.length stem) - (-1 + 1)))
    with (S (String.length s0)) by lia.
  cbn [_splitext_loop].
  assert (Hlt : (-1 + 1 <? Z.of_nat (String.length stem))%Z = true)
    by (apply Z.ltb_lt; lia).
  rewrite Hlt. unfold stem at 1. simpl String.get. cbv beta iota.
  rewrite Hc0. simpl negb. cbv iota.
  now rewrite Nat2Z.id, slice_to_app, slice_from_app.
Qed.

Variable fs : string -> option node.
Variable system : string.

(** X2: with [posixpath], the files [lib<name>.a], [lib<name>.so],
    [lib<name>.dylib] and [lib<name>.bc] are matched by the library
    name [<name>], and [<name>.lib] is matched by [<name>], for every
    name without a slash (and, for [.lib], not beginning with a dot). *)
Theorem posix_library_file_names (name ext : string) :
  has_char slash name = false ->
  (In ext [".a"; ".so"; ".dylib"; ".bc"] ->
   lib_name_of (posix_env fs system) ("lib" ++ name ++ ext) = name)
  /\ (truthy name = true -> startswith name "." = false ->
      lib_name_of (posix_env fs system) (name ++ ".lib") = name).
Proof.
  intros Hname. split.
  - intros Hext. unfold lib_name_of. cbn [os_path_splitext posix_env].
    assert (Hsplit : forall e,
               has_char dot e = false -> has_char slash e = false ->
               posix_splitext ("lib" ++ name ++ String dot e)
               = ("lib" ++ name, String dot e)).
    { intros e He Hes.
      replace ("lib" ++ name ++ String dot e)
        with (String "l" ("ib" ++ name) ++ String dot e)
        by reflexivity.
      apply posix_splitext_stem; auto. }
    destruct Hext as [<- | [<- | [<- | [<- | []]]]];
      match goal with
      | |- context [posix_splitext ("lib" ++ name ++ String ?c ?e)] =>
          change (String c e) with (String dot e);
          rewrite (Hsplit e eq_refl eq_refl)
      end; rewrite (startswith_app "lib" name); reflexivity.
  - intros Htruthy Hdot. unfold lib_name_of. cbn [os_path_splitext posix_env].
    destruct name as [| c0 s0]; [discriminate |].
    change (String c0 s0 ++ ".lib") with (String c0 s0 ++ String dot "lib").
    rewrite (posix_splitext_stem c0 s0 "lib"); try reflexivity; auto.
    unfold startswith in Hdot. simpl in Hdot.
    destruct (ascii_dec dot c0) as [<- | n].
    + destruct s0; discriminate.
    + destruct (Ascii.eqb_spec c0 dot) as [-> | _]; [now elim n | reflexivity].
Qed.

End LibraryNames.

Lemma posix_library_file_names_witness :
  lib_name_of Example.linux "libboost_system.so" = "boost_system"
  /\ lib_name_of Example.linux "zlib.lib" = "zlib".
Proof.
  split.
  - exact (proj1 (posix_library_file_names Example.disk "Linux"
                    "boost_system" ".so" eq_refl)
             (or_intror (or_introl eq_refl))).
  - exact (proj2 (posix_library_file_names Example.disk "Linux" "zlib" ".lib" eq_refl)
             eq_refl eq_refl).
Defined.

Section LibPrefix.
Import PyStr PyStrFacts PyStrMore.
Variable env : Env.

(** X3: a file with one of the extensions [.so], [.a], [.dylib], [.bc]
    whose stem begins with [lib] is compared by the stem without these
    three characters, so it never matches the library that is named by
    its whole stem. *)
Theorem lib_prefixed_stem_never_matches (f stem ext : string) :
  os_path_splitext env f = (stem, ext) ->
  In ext [".so"; ".a"; ".dylib"; ".bc"] ->
  startswith stem "lib" = true ->
  lib_name_of env f = slice_from 3 stem /\ lib_name_of env f <> stem.
Proof.
  intros Hsplit Hext Hlib.
  assert (Hname : lib_name_of env f = slice_from 3 stem).
  { unfold lib_name_of. rewrite Hsplit, Hlib.
    destruct Hext as [<- | [<- | [<- | [<- | []]]]]; reflexivity. }
  split; [exact Hname |].
  rewrite Hname. intros Heq.
  apply startswith_split in Hlib. simpl String.length in Hlib.
  rewrite Heq in Hlib.
  apply (f_equal String.length) in Hlib. simpl in Hlib. lia.
Qed.

End LibPrefix.

Lemma lib_prefixed_stem_never_matches_witness :
  lib_name_of Example.linux "libz.a" = "z" /\ lib_name_of Example.linux "libz.a" <> "libz".
Proof.
  exact (lib_prefixed_stem_never_matches Example.linux "libz.a" "libz" ".a"
           eq_refl (or_intror (or_introl eq_refl)) eq_refl).
Defined.

(** ** What the locator returns *)

Section LocatorResults.
Import PyStr.
Variable env : Env.

Lemma scan_files_found (libdir : string) (files : list string) (lib path : string) :
  scan_files env libdir files lib = Some path ->
  exists f, In f files /\ lib_name_of env f = lib /\ path = os_path_join env libdir f.
Proof.
  induction files as [| f files IH]; simpl; [discriminate |].
  destruct (String.eqb_spec lib (lib_name_of env f)) as [E | _].
  - intros [= <-]. exists f. auto.
  - intros H. destruct (IH H) as (g & Hg & Hm & Hp). exists g. auto.
Qed.

Lemma scan_files_not_found (libdir : string) (files : list string) (lib : string) :
  scan_files env libdir files lib = None ->
  forall f, In f files -> lib_name_of env f <> lib.
Proof.
  induction files as [| f files IH]; simpl; [intros _ g [] |].
  destruct (String.eqb_spec lib (lib_name_of env f)) as [E | N]; [discriminate |].
  intros H g [<- | Hg]; [congruence | now apply IH].
Qed.

(** The steps of the locator on its first directory. *)
Lemma locator_step (libdir : string) (rest : list string) (lib : string) :
  (fs env libdir = None
   /\ _get_lib_file_paths env (libdir :: rest) lib
      = (missing_folder_warning libdir :: fst (_get_lib_file_paths env rest lib),
         snd (_get_lib_file_paths env rest lib)))
  \/ (fs env libdir = Some File
      /\ _get_lib_file_paths env (libdir :: rest) lib = ([], inl (OSError libdir)))
  \/ (exists files,
        fs env libdir = Some (Dir files)
        /\ _get_lib_file_paths env (libdir :: rest) lib
           = match scan_files env libdir files lib with
             | Some path => ([], inr (Some path))
             | None => _get_lib_file_paths env rest lib
             end).
Proof.
  destruct (fs env libdir) as [[| files] |] eqn:Hfs.
  - right. left. split; [reflexivity |].
    simpl. unfold os_path_exists, os_listdir. now rewrite Hfs.
  - right. right. exists files. split; [reflexivity |].
    now apply locator_in_listed_dir.
  - left. split; [reflexivity |].
    simpl. unfold os_path_exists. rewrite Hfs. simpl.
    unfold warning. now rewrite bind_emit.
Qed.

(** X4: a path the locator returns is the join of one of the library
    directories, which is a directory on disk, with one of the names of
    its listing, and that name is one the library name matches. *)
Theorem located_path_is_a_listed_match (libdirs : list string) (lib path : string) :
  snd (_get_lib_file_paths env libdirs lib) = inr (Some path) ->
  exists libdir files f,
    In libdir libdirs
    /\ fs env libdir = Some (Dir files)
    /\ In f files
    /\ lib_name_of env f = lib
    /\ path = os_path_join env libdir f.
Proof.
  induction libdirs as [| libdir rest IH]; [discriminate |].
  intros H.
  assert (Hrest : snd (_get_lib_file_paths env rest lib) = inr (Some path) ->
                  exists libdir' files f,
                    In libdir' (libdir :: rest)
                    /\ fs env libdir' = Some (Dir files)
                    /\ In f files
                    /\ lib_name_of env f = lib
                    /\ path = os_path_join env libdir' f).
  { intros H'. destruct (IH H') as (d & files & f & Hd & Hrest).
    exists d, files, f. split; [now right | exact Hrest]. }
  destruct (locator_step libdir rest lib)
    as [[_ E] | [[_ E] | (files & Hfs & E)]]; rewrite E in H.
  - now apply Hrest.
  - discriminate.
  - destruct (scan_files env libdir files lib) as [p |] eqn:Hscan.
    + simpl in H. injection H as ->.
      destruct (scan_files_found _ _ _ _ Hscan) as (f & Hf & Hm & Hp).
      exists libdir, files, f. repeat split; auto. now left.
    + now apply Hrest.
Qed.

(** X5: when the locator returns nothing, no name in the listing of any
    library directory matches the library name, and the last thing
    printed is the warning that the library cannot be found. *)
Theorem unlocated_library_has_no_match (libdirs : list string) (lib : string) :
  snd (_get_lib_file_paths env libdirs lib) = inr None ->
  (forall libdir files f,
      In libdir libdirs -> fs env libdir = Some (Dir files) -> In f files ->
      lib_name_of env f <> lib)
  /\ exists earlier,
      fst (_get_lib_file_paths env libdirs lib)
      = (earlier ++ [Warning ("The library " ++ lib
                                ++ " cannot be found in the dependency")])%list.
Proof.
  induction libdirs as [| libdir rest IH]; intros H.
  - split; [intros libdir files f [] |]. now exists [].
  - destruct (locator_step libdir rest lib)
      as [[Hfs E] | [[_ E] | (files & Hfs & E)]]; rewrite E in H |- *.
    + destruct (IH H) as (Hno & earlier & Ht). split.
      * intros d files f [<- | Hd] Hdir; [congruence | now apply (Hno d files)].
      * exists (missing_folder_warning libdir :: earlier). simpl. now rewrite Ht.
    + discriminate.
    + destruct (scan_files env libdir files lib) as [p |] eqn:Hscan; [discriminate |].
      destruct (IH H) as (Hno & earlier & Ht). split; [| now exists earlier].
      intros d files' f [<- | Hd] Hdir.
      * rewrite Hfs in Hdir. injection Hdir as <-.
        now apply (scan_files_not_found libdir files lib Hscan).
      * now apply (Hno d files').
Qed.

End LocatorResults.

Lemma located_path_is_a_listed_match_witness :
  exists libdir files f,
    In libdir ["/pkg/zlib/missing"; "/pkg/zlib/lib"]
    /\ Example.disk libdir = Some (Dir files)
    /\ In f files
    /\ lib_name_of Example.linux f = "z"
    /\ "/pkg/zlib/lib/libz.a" = OsPath.posix_join libdir f.
Proof.
  exact (located_path_is_a_listed_match Example.linux
           ["/pkg/zlib/missing"; "/pkg/zlib/lib"] "z" "/pkg/zlib/lib/libz.a" eq_refl).
Defined.

Lemma unlocated_library_has_no_match_witness :
  lib_name_of Example.linux "libz.a" <> "png".
Proof.
  exact (proj1 (unlocated_library_has_no_match Example.linux
                  ["/pkg/zlib/missing"; "/pkg/zlib/lib"] "png" eq_refl)
           "/pkg/zlib/lib" _ "libz.a" (or_intror (or_introl eq_refl)) eq_refl
           (or_intror (or_intror (or_introl eq_refl)))).
Defined.

(** ** The libraries of a dependency *)

Section LocatedLibs.
Import PyStr.
Variable env : Env.

Lemma dict_set_keys (d : list (string * string)) (k v k' : string) :
  In k' (map fst (dict_set d k v)) <-> k' = k \/ In k' (map fst d).
Proof.
  induction d as [| [k0 v0] d IH]; simpl.
  - split; [intros [H | []]; auto | intros [H | []]; auto].
  - destruct (String.eqb_spec k0 k) as [-> | N]; simpl.
    + split; intros H; intuition (subst; auto).
    + rewrite IH. split; intros H; intuition (subst; auto).
Qed.

Lemma dict_set_NoDup (d : list (string * string)) (k v : string) :
  NoDup (map fst d) -> NoDup (map fst (dict_set d k v)).
Proof.
  induction d as [| [k0 v0] d IH]; simpl; intros H.
  - constructor; [intros [] | constructor].
  - inversion H as [| x l Hnot Hd]; subst.
    destruct (String.eqb_spec k0 k) as [-> | N]; simpl.
    + now constructor.
    + constructor; [| now apply IH].
      rewrite dict_set_keys. intros [E | Hin]; [now elim N | now elim Hnot].
Qed.

Lemma dict_set_In (d : list (string * string)) (k v k' v' : string) :
  In (k', v') (dict_set d k v) -> (k' = k /\ v' = v) \/ In (k', v') d.
Proof.
  induction d as [| [k0 v0] d IH]; simpl.
  - intros [[= <- <-] | []]. now left.
  - destruct (String.eqb_spec k0 k) as [-> | N]; simpl.
    + intros [[= <- <-] | H]; [now left | right; now right].
    + intros [H | H]; [right; now left |].
      destruct (IH H) as [E | Hin]; [now left | right; now right].
Qed.

Variable libdirs : list string.
Variable folder : option string.

Lemma locate_libs_entries (names : list string) (found result : list (string * string)) :
  snd (locate_libs env libdirs folder names found) = inr result ->
  NoDup (map fst found) ->
  NoDup (map fst result)
  /\ (forall k, In k (map fst found) -> In k (map fst result))
  /\ (forall k v, In (k, v) result -> In (k, v) found \/ located env libdirs folder names k v)
  /\ (forall k path, In k names ->
        snd (_get_lib_file_paths env libdirs k) = inr (Some path) ->
        truthy path = true -> In k (map fst result)).
Proof.
  revert found. induction names as [| lib names IH]; intros found H Hnd.
  - simpl in H. injection H as <-. repeat split; auto. intros k path [].
  - simpl in H. apply bind_inr in H as (real_path & Hloc & H & _).
    assert (Hweak : forall k v, located env libdirs folder names k v -> located env libdirs folder (lib :: names) k v).
    { intros k v (Hk & Hp). split; [now right | exact Hp]. }
    assert (Hskip :
              snd (locate_libs env libdirs folder names found) = inr result ->
              (real_path = None \/ exists p, real_path = Some p /\ truthy p = false) ->
              NoDup (map fst result)
              /\ (forall k, In k (map fst found) -> In k (map fst result))
              /\ (forall k v, In (k, v) result ->
                              In (k, v) found \/ located env libdirs folder (lib :: names) k v)
              /\ (forall k path, In k (lib :: names) ->
                    snd (_get_lib_file_paths env libdirs k) = inr (Some path) ->
                    truthy path = true -> In k (map fst result))).
    { intros H' Hnone. destruct (IH found H' Hnd) as (I1 & I2 & I3 & I4).
      split; [exact I1 |]. split; [exact I2 |]. split.
      - intros k v Hkv. destruct (I3 k v Hkv); auto.
      - intros k path [<- | Hk] Hp Ht; [| now apply (I4 k path)].
        rewrite Hloc in Hp. injection Hp as ->.
        destruct Hnone as [? | (p & [= <-] & Hf)]; congruence. }
    destruct real_path as [p |]; [| apply Hskip; auto].
    destruct (truthy p) eqn:Htruthy; [| apply Hskip; eauto].
    apply bind_inr in H as (r & Hr & H & _).
    destruct (IH _ H (dict_set_NoDup found lib r Hnd)) as (I1 & I2 & I3 & I4).
    split; [exact I1 |]. split; [| split].
    + intros k Hk. apply I2, dict_set_keys. now right.
    + intros k v Hkv. destruct (I3 k v Hkv) as [Hset | Hl]; [| right; now apply Hweak].
      destruct (dict_set_In _ _ _ _ _ Hset) as [[-> ->] | Hin]; [| now left].
      right. split; [now left |]. exists p. split; [exact Hloc | exact Hr].
    + intros k path [<- | Hk] Hp Ht; [| now apply (I4 k path)].
      apply I2, dict_set_keys. now left.
Qed.

(** X6: the dict of libraries has one entry for each name of
    [cpp_info.libs] that the locator finds, and no other: its keys are
    distinct even when a name is listed twice, and the value of a key
    is the relativised path of the file found for it. *)
Theorem located_libs_are_distinct (names : list string) (result : list (string * string)) :
  snd (locate_libs env libdirs folder names []) = inr result ->
  NoDup (map fst result)
  /\ (forall k v, In (k, v) result -> located env libdirs folder names k v)
  /\ (forall k path, In k names ->
        snd (_get_lib_file_paths env libdirs k) = inr (Some path) ->
        truthy path = true -> In k (map fst result)).
Proof.
  intros H.
  destruct (locate_libs_entries names [] result H (NoDup_nil _)) as (I1 & _ & I3 & I4).
  split; [exact I1 |]. split; [| exact I4].
  intros k v Hkv. destruct (I3 k v Hkv) as [[] | Hl]. exact Hl.
Qed.

End LocatedLibs.

Lemma located_libs_are_distinct_witness :
  NoDup (map fst [("z", "lib/libz.a")]).
Proof.
  exact (proj1 (located_libs_are_distinct Example.linux
                  ["/pkg/zlib/lib"] (Some "/pkg/zlib") ["z"; "png"; "z"]
                  [("z", "lib/libz.a")] eq_refl)).
Defined.

(** ** Paths below the package folder *)

Section RelativePaths.
Import PyStr PyStrFacts PyStrMore OsPath.

Lemma relativize_subpath (folder rel : string) :
  has_char backslash rel = false ->
  startswith rel "/" = false ->
  _relativize_path (folder ++ "/" ++ rel) (Some folder) = inr rel.
Proof.
  intros Hb Hs. unfold _relativize_path.
  rewrite startswith_app, slice_from_app.
  change ("/" ++ rel) with (String slash rel). cbn [replace].
  change (Ascii.eqb slash backslash) with false. cbv iota.
  rewrite (replace_absent backslash "/" rel Hb).
  cbn [lstrip]. rewrite Ascii.eqb_refl.
  now rewrite (lstrip_no_lead_id slash rel Hs).
Qed.

(** X7: include directories that lie below the package folder, written
    with forward slashes, are emitted as their paths relative to the
    package folder, in the order of [cpp_info.includedirs]. *)
Theorem include_dirs_relative (folder : string) (rels : list string) :
  Forall (fun rel => has_char backslash rel = false /\ startswith rel "/" = false)
         rels ->
  relativize_all (map (fun rel => folder ++ "/" ++ rel) rels) (Some folder)
    = inr rels.
Proof.
  induction 1 as [| rel rels [Hb Hs] _ IH]; [reflexivity |].
  cbn [map relativize_all].
  now rewrite (relativize_subpath folder rel Hb Hs), IH.
Qed.

(** X8: with [posixpath], a file found in the directory [<dir>] of the
    package folder is emitted as [<dir>/<file>]: joining the library
    directory with the file name and relativising the result gives the
    path below the package folder. *)
Theorem located_library_relative_path (folder dir f : string) :
  truthy dir = true ->
  startswith dir "/" = false ->
  endswith_char dir slash = false ->
  has_char backslash dir = false ->
  startswith f "/" = false ->
  has_char backslash f = false ->
  _relativize_path (posix_join (folder ++ "/" ++ dir) f) (Some folder)
    = inr (dir ++ "/" ++ f).
Proof.
  intros Hdir Hlead Hend Hbdir Hf Hbf.
  assert (Hjoin : posix_join (folder ++ "/" ++ dir) f
                  = folder ++ "/" ++ (dir ++ "/" ++ f)).
  { unfold posix_join.
    change (String slash EmptyString) with "/". rewrite Hf.
    assert (Ht : truthy (folder ++ "/" ++ dir) = true) by now destruct folder.
    rewrite Ht. simpl negb. cbn [orb].
    rewrite (endswith_char_app folder ("/" ++ dir) slash eq_refl).
    rewrite (endswith_char_app "/" dir slash Hdir), Hend.
    now rewrite !append_assoc. }
  rewrite Hjoin. apply relativize_subpath.
  - rewrite has_char_app, Hbdir. simpl. exact Hbf.
  - destruct dir as [| c dir]; [discriminate |].
    unfold startswith in *. cbn [String.append String.prefix] in *.
    destruct (ascii_dec "/" c); [destruct dir; discriminate | reflexivity].
Qed.

End RelativePaths.

Lemma include_dirs_relative_witness :
  relativize_all ["/pkg/zlib/include"; "/pkg/zlib/include/zlib"] (Some "/pkg/zlib")
    = inr ["include"; "include/zlib"].
Proof.
  refine (include_dirs_relative "/pkg/zlib" ["include"; "include/zlib"] _).
  repeat constructor.
Defined.

Lemma located_library_relative_path_witness :
  _relativize_path (OsPath.posix_join "/pkg/zlib/lib" "libz.a") (Some "/pkg/zlib")
    = inr "lib/libz.a".
Proof.
  exact (located_library_relative_path "/pkg/zlib" "lib" "libz.a"
           eq_refl eq_refl eq_refl eq_refl eq_refl eq_refl).
Defined.

(** ** The content of a host dependency *)

Section Content.
Import PyStr.
Variable env : Env.

(** X9: for an editable package that has include directories, the
    content is not rendered: relativising the first include directory
    against the missing package folder raises a [TypeError], before
    anything is printed or saved, so the visit of the dependency ends
    with that exception and not with the one about editable packages. *)
Theorem editable_with_includedirs_type_error (gf : string) (d : Dependency) :
  package_folder d = None ->
  includedirs (cpp_info d) <> [] ->
  _get_dependency_buildfile_content env d = ([], inl TypeError)
  /\ visit env gf (HostDep d) = ([], inl TypeError).
Proof.
  intros Hfolder Hinc.
  assert (Hc : _get_dependency_buildfile_content env d = ([], inl TypeError)).
  { unfold _get_dependency_buildfile_content. rewrite Hfolder.
    destruct (includedirs (cpp_info d)) as [| path paths]; [now elim Hinc |].
    rewrite andb_false_r. reflexivity. }
  split; [exact Hc |]. simpl. unfold visit_host. now rewrite Hc.
Qed.

(** X10: the content of a dependency without libraries does not depend
    on its own dependencies nor on its [shared] option: the [deps]
    attribute, which carries them, is written only when a library was
    located. *)
Theorem header_only_content_ignores_dependencies
        (d : Dependency) (deps : list string) (shared : bool) :
  libs (cpp_info d) = [] ->
  _get_dependency_buildfile_content env
    (mkDependency (ref_name d) (package_folder d) (cpp_info d) deps shared)
  = _get_dependency_buildfile_content env d.
Proof.
  intros Hlibs. unfold _get_dependency_buildfile_content. simpl.
  rewrite Hlibs. simpl.
  destruct (includedirs (cpp_info d)); [reflexivity |].
  apply bind_ext. intros rel. now rewrite !bind_ret_l.
Qed.

End Content.

Lemma editable_with_includedirs_type_error_witness :
  visit Example.linux "/gen"
    (HostDep (mkDependency "local" None
                (mkCppInfo [] ["/src/local/include"] [] [] []) [] false))
  = ([], inl TypeError).
Proof.
  refine (proj2 (editable_with_includedirs_type_error Example.linux "/gen"
                   (mkDependency "local" None
                      (mkCppInfo [] ["/src/local/include"] [] [] []) [] false)
                   eq_refl _)).
  discriminate.
Defined.

Lemma header_only_content_ignores_dependencies_witness :
  _get_dependency_buildfile_content Example.linux
    (mkDependency "eigen" (Some "/pkg/eigen")
       (mkCppInfo [] ["/pkg/eigen/include"] [] [] []) ["zlib"; "boost"] true)
  = _get_dependency_buildfile_content Example.linux
      (mkDependency "eigen" (Some "/pkg/eigen")
         (mkCppInfo [] ["/pkg/eigen/include"] [] [] []) [] false).
Proof.
  exact (header_only_content_ignores_dependencies Example.linux
           (mkDependency "eigen" (Some "/pkg/eigen")
              (mkCppInfo [] ["/pkg/eigen/include"] [] [] []) [] false)
           ["zlib"; "boost"] true eq_refl).
Defined.

(** ** The paths of the files *)

Section Paths.
Import PyStr PyStrFacts PyStrMore.

(** X11: the files of two dependencies are the same file only when the
    dependencies have the same name, and the file of a dependency is
    never one of the two files of the entry point, whatever the name. *)
Theorem buildfile_paths_distinct (gf name name' : string) :
  (buildfile_path gf name = buildfile_path gf name' -> name = name')
  /\ buildfile_path gf name <> gf ++ "/BUILD"
  /\ buildfile_path gf name <> gf ++ "/dependencies.bzl".
Proof.
  unfold buildfile_path. split; [| split].
  - intros H. apply append_cancel_l in H. apply (append_cancel_l "/") in H.
    now apply append_cancel_r in H.
  - intros H. apply append_cancel_l in H.
    apply (f_equal String.length) in H. simpl in H.
    rewrite length_append in H. simpl in H. lia.
  - intros H. apply append_cancel_l in H.
    apply (append_cancel_l "/" (name ++ "/BUILD") "dependencies.bzl") in H.
    apply (f_equal (fun s => OsPath.endswith_char s "D")) in H.
    rewrite (endswith_char_app name "/BUILD" "D" eq_refl) in H.
    discriminate.
Qed.

Lemma buildfile_paths_distinct_witness :
  "zlib" = "zlib" /\ buildfile_path "/gen" "zlib" <> "/gen/BUILD".
Proof.
  pose proof (buildfile_paths_distinct "/gen" "zlib" "zlib") as (Hinj & Hbuild & _).
  split; [exact (Hinj eq_refl) | exact Hbuild].
Defined.

End Paths.

(** ** Every run, returning or not *)

Section AnyRun.
Import PyStr.
Variable env : Env.
Variable gf : string.

Lemma bind_inl {A B} (m : M A) (k : A -> M B) (e : exn) :
  snd (bind m k) = inl e ->
  snd m = inl e \/ exists a, snd m = inr a /\ snd (k a) = inl e.
Proof.
  destruct m as [t [e' | a]]; unfold bind; simpl.
  - intros [= ->]. now left.
  - destruct (k a) as [t' r] eqn:E. simpl. intros ->.
    right. exists a. now rewrite E.
Qed.

Lemma in_save_saved (trace : list event) (f c : string) :
  In (Save f c) trace -> In (f, c) (saved trace).
Proof.
  intros H. unfold saved. apply in_flat_map.
  exists (Save f c). split; [exact H | now left].
Qed.

Lemma visit_saves (v : visited) (f c : string) :
  In (Save f c) (fst (visit env gf v)) ->
  exists d, (v = BuildDep d \/ v = HostDep d) /\ f = buildfile_path gf (ref_name d).
Proof.
  destruct v as [d | d]; simpl.
  - unfold visit_build, _save_dependency_buildfile, _create_new_local_repository,
      save, bind. simpl.
    intros H. exists d. split; [now left |].
    destruct (package_folder d); simpl in H;
      destruct H as [[= <- _] | []]; reflexivity.
  - unfold visit_host. rewrite fst_bind. intros H.
    apply in_app_or in H as [H | H].
    + apply in_save_saved in H. rewrite content_saves_nothing in H. contradiction.
    + exists d. split; [now right |].
      destruct (snd (_get_dependency_buildfile_content env d)) as [e | [content |]];
        try contradiction.
      destruct (negb (truthy content)); [contradiction |].
      unfold _save_dependency_buildfile, _create_new_local_repository, save, bind in H.
      simpl in H.
      destruct (package_folder d); simpl in H;
        destruct H as [[= <- _] | []]; reflexivity.
Qed.

Lemma visit_in_order_saves (vs : list visited) (f c : string) :
  In (Save f c) (fst (visit_in_order env gf vs)) ->
  exists d, (In (BuildDep d) vs \/ In (HostDep d) vs)
            /\ f = buildfile_path gf (ref_name d).
Proof.
  induction vs as [| v vs IH]; simpl; [contradiction |].
  rewrite fst_bind. intros H. apply in_app_or in H as [H | H].
  - destruct (visit_saves v f c H) as (d & [-> | ->] & Hf); exists d; auto.
  - destruct (snd (visit env gf v)) as [e | here]; [contradiction |].
    rewrite fst_bind in H. apply in_app_or in H as [H | H].
    + destruct (IH H) as (d & [Hd | Hd] & Hf); exists d; auto.
    + destruct (snd (visit_in_order env gf vs)); contradiction.
Qed.

Lemma visit_in_order_fails_at (vs : list visited) (v : visited) (ws : list visited)
      (earlier : list event) (snippets : list string) (e : exn) :
  visit_in_order env gf vs = (earlier, inr snippets) ->
  snd (visit env gf v) = inl e ->
  visit_in_order env gf (vs ++ v :: ws)
    = ((earlier ++ fst (visit env gf v))%list, inl e).
Proof.
  intros Hvs Hv. rewrite visit_in_order_app, Hvs, bind_returned.
  cbn [visit_in_order].
  destruct (visit env gf v) as [t r]. simpl in Hv. subst r. reflexivity.
Qed.

Lemma visit_in_order_raises (vs : list visited) (v : visited) :
  In v vs -> raises (visit env gf v) -> raises (visit_in_order env gf vs).
Proof.
  induction vs as [| u vs IH]; [contradiction |].
  intros Hin Hv. simpl.
  destruct (visit env gf u) as [t [e | here]] eqn:Hu.
  - exists e. reflexivity.
  - destruct Hin as [-> | Hin].
    + destruct Hv as [e He]. rewrite Hu in He. discriminate.
    + destruct (IH Hin Hv) as [e He].
      exists e. rewrite bind_returned. simpl.
      destruct (visit_in_order env gf vs) as [t' r]. simpl in He. now subst r.
Qed.

Lemma visit_in_order_raised (vs : list visited) (e : exn) :
  snd (visit_in_order env gf vs) = inl e ->
  exists v, In v vs /\ snd (visit env gf v) = inl e.
Proof.
  induction vs as [| v vs IH]; [discriminate |].
  simpl. intros H. apply bind_inl in H as [H | (here & _ & H)].
  - exists v. split; [now left | exact H].
  - apply bind_inl in H as [H | (later & _ & H)]; [| discriminate].
    destruct (IH H) as (u & Hu & He). exists u. split; [now right | exact He].
Qed.

End AnyRun.

Section AnyRunOfGenerate.
Import PyStr.
Variable env : Env.

(** X12: whether it returns or raises, a run saves nothing but the two
    files of the entry point and files [<generators_folder>/<name>/BUILD]
    for names of dependencies of the graph. *)
Theorem generate_writes_only_its_files (conanfile : ConanFile) (f c : string) :
  let gf := generators_folder conanfile in
  In (Save f c) (fst (generate env conanfile)) ->
  f = gf ++ "/BUILD"
  \/ f = gf ++ "/dependencies.bzl"
  \/ exists d, In d (direct_build conanfile ++ host conanfile)
               /\ f = buildfile_path gf (ref_name d).
Proof.
  intros gf. rewrite generate_walks, fst_bind. intros H.
  apply in_app_or in H as [H | H].
  - right. right.
    destruct (visit_in_order_saves env _ _ f c H) as (d & Hd & Hf).
    exists d. split; [| exact Hf].
    unfold graph_order in Hd. apply in_or_app.
    destruct Hd as [Hd | Hd]; apply in_app_or in Hd as [Hd | Hd];
      apply in_map_iff in Hd as (d' & E & Hd'); try discriminate;
      injection E as ->; auto.
  - destruct (snd (visit_in_order env _ _)) as [e | snippets]; [contradiction |].
    simpl in H. destruct H as [[= <- _] | [[= <- _] | []]]; auto.
Qed.

(** X13: the first visit that raises ends the run with its exception:
    what the earlier visits and that visit printed and saved is all
    that happened, the dependencies after it are not visited and the
    files of the entry point are not written. *)
Theorem first_failure_ends_run
        (conanfile : ConanFile) (vs : list visited) (v : visited) (ws : list visited)
        (earlier : list event) (snippets : list string) (e : exn) :
  let gf := generators_folder conanfile in
  graph_order conanfile = (vs ++ v :: ws)%list ->
  visit_in_order env gf vs = (earlier, inr snippets) ->
  snd (visit env gf v) = inl e ->
  generate env conanfile = ((earlier ++ fst (visit env gf v))%list, inl e).
Proof.
  intros gf Horder Hvs Hv.
  rewrite generate_walks, Horder. fold gf.
  now rewrite (visit_in_order_fails_at env gf vs v ws earlier snippets e Hvs Hv).
Qed.

(** X14: a direct build dependency without a package folder ends the
    run like an editable host dependency does: its [filegroup] file is
    saved, then the exception about editable packages is raised. *)
Theorem editable_build_dependency_raises
        (conanfile : ConanFile) (before : list Dependency) (d : Dependency)
        (after : list Dependency) :
  let gf := generators_folder conanfile in
  direct_build conanfile = (before ++ d :: after)%list ->
  package_folder d = None ->
  raises (generate env conanfile)
  /\ (forall earlier snippets,
        visit_in_order env gf (map BuildDep before) = (earlier, inr snippets) ->
        generate env conanfile
          = ((earlier ++ [Save (buildfile_path gf (ref_name d))
                               (_get_build_dependency_buildfile_content d)])%list,
             inl (ConanException "BazelDeps doesn't support editable packages"))).
Proof.
  intros gf Hbuild Hfolder.
  assert (Hv : visit env gf (BuildDep d)
               = ([Save (buildfile_path gf (ref_name d))
                        (_get_build_dependency_buildfile_content d)],
                  inl (ConanException "BazelDeps doesn't support editable packages"))).
  { simpl. unfold visit_build, _save_dependency_buildfile,
      _create_new_local_repository, save. now rewrite Hfolder. }
  split.
  - assert (Hwalk : raises (visit_in_order env gf (graph_order conanfile))).
    { apply (visit_in_order_raises env gf _ (BuildDep d)).
      - unfold graph_order. rewrite Hbuild. apply in_or_app. left.
        apply in_map, in_or_app. right. now left.
      - eexists. rewrite Hv. reflexivity. }
    destruct Hwalk as [e He]. exists e. rewrite generate_walks. fold gf.
    destruct (visit_in_order env gf (graph_order conanfile)) as [t r].
    simpl in He. now subst r.
  - intros earlier snippets He.
    rewrite generate_walks. unfold graph_order. fold gf.
    rewrite Hbuild, map_app. cbn [map]. rewrite <- app_assoc. cbn [app].
    rewrite (visit_in_order_fails_at env gf _ (BuildDep d) _ earlier snippets
               (ConanException "BazelDeps doesn't support editable packages") He);
      now rewrite Hv.
Qed.

End AnyRunOfGenerate.

Lemma generate_writes_only_its_files_witness :
  "/gen/zlib/BUILD" = "/gen/BUILD"
  \/ "/gen/zlib/BUILD" = "/gen/dependencies.bzl"
  \/ exists d, In d (direct_build Example.with_editable ++ host Example.with_editable)
               /\ "/gen/zlib/BUILD" = buildfile_path "/gen" (ref_name d).
Proof.
  refine (generate_writes_only_its_files Example.linux Example.with_editable
            "/gen/zlib/BUILD" _ _).
  right. left. reflexivity.
Defined.

Lemma first_failure_ends_run_witness :
  snd (generate Example.linux Example.with_editable)
    = inl (ConanException "BazelDeps doesn't support editable packages").
Proof.
  rewrite (first_failure_ends_run Example.linux Example.with_editable
             [HostDep Example.zlib] (HostDep Example.editable) [HostDep Example.meta]
             _ _ _ eq_refl eq_refl eq_refl).
  reflexivity.
Defined.

Lemma editable_build_dependency_raises_witness :
  raises (generate Example.linux
            (mkConanFile "/gen"
               [Example.cmake; mkDependency "ninja" None (mkCppInfo [] [] [] [] []) [] false]
               [Example.zlib])).
Proof.
  exact (proj1 (editable_build_dependency_raises Example.linux
                  (mkConanFile "/gen"
                     [Example.cmake;
                      mkDependency "ninja" None (mkCppInfo [] [] [] [] []) [] false]
                     [Example.zlib])
                  [Example.cmake]
                  (mkDependency "ninja" None (mkCppInfo [] [] [] [] []) [] false)
                  [] eq_refl eq_refl)).
Defined.

(** ** What is printed *)

Section Printed.
Import PyStr.
Variable env : Env.

Lemma locator_prints (libdirs : list string) (lib : string) (ev : event) :
  In ev (fst (_get_lib_file_paths env libdirs lib)) ->
  (exists libdir,
      In libdir libdirs /\ fs env libdir = None /\ ev = missing_folder_warning libdir)
  \/ ev = not_found_warning lib.
Proof.
  induction libdirs as [| libdir rest IH].
  - simpl. intros [<- | []]. now right.
  - intros H.
    assert (Hrest : In ev (fst (_get_lib_file_paths env rest lib)) ->
                    (exists libdir',
                        In libdir' (libdir :: rest) /\ fs env libdir' = None
                        /\ ev = missing_folder_warning libdir')
                    \/ ev = not_found_warning lib).
    { intros H'. destruct (IH H') as [(d & Hd & Hnone & ->) | ->]; [left | now right].
      exists d. repeat split; [now right | exact Hnone]. }
    destruct (locator_step env libdir rest lib)
      as [[Hnone E] | [[_ E] | (files & _ & E)]]; rewrite E in H.
    + simpl in H. destruct H as [<- | H]; [| now apply Hrest].
      left. exists libdir. repeat split; [now left | exact Hnone].
    + contradiction.
    + destruct (scan_files env libdir files lib); [contradiction | now apply Hrest].
Qed.

Lemma locate_libs_prints (libdirs : list string) (folder : option string)
      (names : list string) (found : list (string * string)) (ev : event) :
  In ev (fst (locate_libs env libdirs folder names found)) ->
  (exists libdir,
      In libdir libdirs /\ fs env libdir = None /\ ev = missing_folder_warning libdir)
  \/ exists lib, In lib names /\ ev = not_found_warning lib.
Proof.
  revert found. induction names as [| lib names IH]; intros found; [contradiction |].
  simpl. rewrite fst_bind. intros H.
  assert (Hrest : forall found',
             In ev (fst (locate_libs env libdirs folder names found')) ->
             (exists libdir,
                 In libdir libdirs /\ fs env libdir = None
                 /\ ev = missing_folder_warning libdir)
             \/ exists lib', In lib' (lib :: names) /\ ev = not_found_warning lib').
  { intros found' H'. destruct (IH found' H') as [Hm | (l & Hl & ->)]; [now left |].
    right. exists l. split; [now right | reflexivity]. }
  apply in_app_or in H as [H | H].
  - destruct (locator_prints libdirs lib ev H) as [Hm | ->]; [now left |].
    right. exists lib. split; [now left | reflexivity].
  - destruct (snd (_get_lib_file_paths env libdirs lib)) as [e | [p |]];
      [contradiction | | now apply (Hrest found)].
    destruct (truthy p); [| now apply (Hrest found)].
    rewrite fst_bind in H. apply in_app_or in H as [[] | H].
    destruct (snd (lift (_relativize_path p folder))) as [e | r];
      [contradiction | now apply (Hrest _ H)].
Qed.

(** X16: computing the content of a host dependency saves no file and
    prints nothing but warnings, each of them for a library directory
    of the dependency that does not exist or for a library of the
    dependency that was not found. *)
Theorem content_prints_only_warnings (d : Dependency) (ev : event) :
  In ev (fst (_get_dependency_buildfile_content env d)) ->
  (exists libdir,
      In libdir (libdirs (cpp_info d)) /\ fs env libdir = None
      /\ ev = missing_folder_warning libdir)
  \/ exists lib, In lib (libs (cpp_info d)) /\ ev = not_found_warning lib.
Proof.
  unfold _get_dependency_buildfile_content.
  match goal with |- context [if ?c then _ else _] => destruct c end;
    [contradiction |].
  rewrite fst_bind. intros H. apply in_app_or in H as [[] | H].
  destruct (snd (lift (relativize_all (includedirs (cpp_info d)) (package_folder d))))
    as [e | rel]; [contradiction |].
  rewrite fst_bind in H. apply in_app_or in H as [H | H].
  - now apply (locate_libs_prints _ _ _ _ ev H).
  - destruct (snd (locate_libs env _ _ _ _)); contradiction.
Qed.

End Printed.

Lemma content_prints_only_warnings_witness :
  (exists libdir,
      In libdir (libdirs (cpp_info Example.zlib)) /\ Example.disk libdir = None
      /\ Warning "The library folder doesn't exist: /pkg/zlib/missing"
         = missing_folder_warning libdir)
  \/ exists lib, In lib (libs (cpp_info Example.zlib))
                 /\ Warning "The library folder doesn't exist: /pkg/zlib/missing"
                    = not_found_warning lib.
Proof.
  refine (content_prints_only_warnings Example.linux Example.zlib
            (Warning "The library folder doesn't exist: /pkg/zlib/missing") _).
  now left.
Defined.

(** ** Defines *)

Section Defines.
Import PyStr PyStrFacts PyStrMore.

Lemma replace_app (a : ascii) (r s t : string) :
  replace a r (s ++ t) = replace a r s ++ replace a r t.
Proof.
  induction s as [| c s IH]; simpl; [reflexivity |].
  destruct (Ascii.eqb c a); rewrite IH; [now rewrite append_assoc | reflexivity].
Qed.

(** X17: a define is written between double quotes; a define without a
    double quote is written as it is, and every double quote inside a
    define is written as three backslashes and the quote, the text on
    both sides of it being treated in the same way. *)
Theorem define_escaping (define before after : string) :
  format_define define = DQ ++ escaped_define define ++ DQ
  /\ (has_char dquote define = false -> escaped_define define = define)
  /\ escaped_define (before ++ DQ ++ after)
     = escaped_define before ++ (BSLASH ++ BSLASH ++ BSLASH ++ DQ)
         ++ escaped_define after.
Proof.
  split; [reflexivity |]. split.
  - apply replace_absent.
  - unfold escaped_define. rewrite !replace_app. reflexivity.
Qed.

Lemma define_escaping_witness :
  escaped_define "ZLIB_CONST" = "ZLIB_CONST".
Proof.
  exact (proj1 (proj2 (define_escaping "ZLIB_CONST" EmptyString EmptyString)) eq_refl).
Defined.

End Defines.

(** ** The order of the walk *)

Section Order.
Import PyStr.
Variable env : Env.

Lemma visit_in_order_trace (gf : string) (vs : list visited) (snippets : list string) :
  snd (visit_in_order env gf vs) = inr snippets ->
  fst (visit_in_order env gf vs) = concat (map (fun v => fst (visit env gf v)) vs).
Proof.
  revert snippets. induction vs as [| v vs IH]; intros snippets H; [reflexivity |].
  simpl in H. apply bind_inr in H as (here & Hhere & H & Ht).
  apply bind_inr in H as (later & Hlater & _ & Ht').
  cbn [visit_in_order map concat]. rewrite Ht, Ht', (IH later Hlater).
  simpl. now rewrite app_nil_r.
Qed.

Lemma visit_in_order_first_failure (gf : string) (vs : list visited) (e : exn) :
  snd (visit_in_order env gf vs) = inl e ->
  exists before failing after trace snippets,
    vs = (before ++ failing :: after)%list
    /\ visit_in_order env gf before = (trace, inr snippets)
    /\ snd (visit env gf failing) = inl e.
Proof.
  induction vs as [| v vs IH]; [discriminate |].
  simpl. intros H. apply bind_inl in H as [H | (here & Hhere & H)].
  - exists [], v, vs, [], []. auto.
  - apply bind_inl in H as [H | (later & _ & H)]; [| discriminate].
    destruct (IH H) as (before & failing & after & trace & snippets & -> & Hb & Hf).
    destruct (visit env gf v) as [t r] eqn:Hv. simpl in Hhere. subst r.
    exists (v :: before), failing, after, (t ++ trace)%list, (here ++ snippets)%list.
    split; [reflexivity |]. split; [| exact Hf].
    simpl. rewrite Hv, bind_returned, Hb. simpl. now rewrite app_nil_r.
Qed.

(** C4, as the code has it: [generate] is one pass over the direct
    build-time dependencies followed by the host-time dependencies.  On
    a run that returns every dependency is visited once, in that order:
    what the run printed and saved is what the visits print and save,
    one visit after the other, followed by the two files of the entry
    point, and the text of dependencies.bzl holds the registrations of
    the dependencies that got a file, in the order of the visits.  On a
    run that raises, the dependencies are visited in that order up to
    the first whose visit raises, and no further. *)
Theorem generate_visits_in_graph_order (conanfile : ConanFile) :
  let gf := generators_folder conanfile in
  let order := graph_order conanfile in
  generate env conanfile
    = (snippets <- visit_in_order env gf order ;;
       _save_main_buildfiles (_get_main_buildfile_content snippets) gf)
  /\ (snd (generate env conanfile) = inr tt ->
      exists snippets,
        Forall2 (is_registration_of gf) (flat_map (written_for env) order) snippets
        /\ fst (generate env conanfile)
           = List.app (concat (map (fun v => fst (visit env gf v)) order))
               [Save (gf ++ "/BUILD") EmptyString;
                Save (gf ++ "/dependencies.bzl") (entry_point_text snippets)])
  /\ (forall e,
        snd (generate env conanfile) = inl e ->
        exists before failing after,
          order = List.app before (failing :: after)
          /\ Forall (fun v => exists l, snd (visit env gf v) = inr l) before
          /\ snd (visit env gf failing) = inl e
          /\ fst (generate env conanfile)
             = concat (map (fun v => fst (visit env gf v))
                           (List.app before [failing]))).
Proof.
  intros gf order. split; [apply generate_walks |]. split.
  - intros H.
    destruct (generate_returns env conanfile H) as (trace & snippets & E).
    fold gf order in E.
    assert (Hs : snd (visit_in_order env gf order) = inr snippets) by now rewrite E.
    destruct (visit_in_order_returns env gf _ _ Hs) as (_ & Hsnip & _).
    exists snippets. split; [now apply snippets_are_registrations |].
    rewrite (generate_of_walk env conanfile trace snippets E).
    pose proof (visit_in_order_trace gf order snippets Hs) as Ht.
    rewrite E in Ht. simpl in Ht. fold gf. cbn [fst]. rewrite Ht.
    now rewrite (main_buildfile_entry_point_text snippets
                   (snippets_end_with_newline _ _ _ Hsnip)).
  - intros e H. rewrite generate_walks in H. fold gf order in H.
    apply bind_inl in H as [H | (snippets & _ & H)]; [| discriminate].
    destruct (visit_in_order_first_failure gf order e H)
      as (before & failing & after & trace & snippets & Horder & Hb & Hf).
    exists before, failing, after. split; [exact Horder |].
    assert (Hbs : snd (visit_in_order env gf before) = inr snippets) by now rewrite Hb.
    split; [exact (visit_in_order_each env gf _ _ Hbs) |]. split; [exact Hf |].
    rewrite generate_walks. fold gf order. rewrite Horder.
    rewrite (visit_in_order_fails_at env gf before failing after trace snippets e Hb Hf).
    cbn [fst bind]. rewrite map_app, concat_app. cbn [map concat].
    rewrite app_nil_r.
    pose proof (visit_in_order_trace gf before snippets Hbs) as Ht.
    rewrite Hb in Ht. simpl in Ht. now rewrite Ht.
Qed.

End Order.

Lemma generate_visits_in_graph_order_witness :
  exists snippets,
    Forall2 (is_registration_of "/gen")
            (flat_map (written_for Example.linux) (graph_order Example.project))
            snippets
    /\ fst (generate Example.linux Example.project)
       = List.app
           (concat (map (fun v => fst (visit Example.linux "/gen" v))
                        (graph_order Example.project)))
           [Save "/gen/BUILD" EmptyString;
            Save "/gen/dependencies.bzl" (entry_point_text snippets)].
Proof.
  exact (proj1 (proj2 (generate_visits_in_graph_order Example.linux Example.project))
           eq_refl).
Defined.

(** C4, as the specification states it, fails: [zlib] comes after an
    editable package in the host dependencies; the run raises at the
    editable package and nothing of the visit of [zlib], which prints
    a warning and saves a file, has happened. *)
Lemma dependency_after_failure_is_not_visited :
  In Example.zlib (host Example.editable_first)
  /\ snd (generate Example.linux Example.editable_first)
     = inl (ConanException "BazelDeps doesn't support editable packages")
  /\ fst (visit Example.linux "/gen" (HostDep Example.zlib)) <> []
  /\ (forall ev,
        In ev (fst (visit Example.linux "/gen" (HostDep Example.zlib))) ->
        ~ In ev (fst (generate Example.linux Example.editable_first))).
Proof.
  split; [right; now left |]. split; [reflexivity |]. split; [discriminate |].
  intros ev Hvisit Hrun. vm_compute in Hvisit, Hrun.
  destruct Hvisit as [<- | [<- | []]];
    destruct Hrun as [H | [H | []]]; discriminate.
Qed.

(** ** The paths in the BUILD file of a dependency *)

Section BuildText.
Import PyStr PyStrFacts.
Variable env : Env.

Lemma without_leading_slashes_lstrip (s : string) :
  lstrip slash s = without_leading_slashes s.
Proof.
  induction s as [| c s IH]; simpl; [reflexivity |].
  now destruct (Ascii.eqb c slash).
Qed.

(** The path the code emits is the path of the specification. *)
Lemma relativize_path_relative_to (folder path : string) :
  _relativize_path path (Some folder) = inr (relative_to folder path).
Proof.
  unfold _relativize_path, relative_to.
  destruct (startswith path folder);
    now rewrite forward_slashes_replace, without_leading_slashes_lstrip.
Qed.

Lemma relativize_all_relative_to (folder : string) (paths : list string) :
  relativize_all paths (Some folder) = inr (map (relative_to folder) paths).
Proof.
  induction paths as [| path paths IH]; [reflexivity |].
  cbn [relativize_all map]. now rewrite relativize_path_relative_to, IH.
Qed.

Lemma contains_skip (s t part : string) : contains t part -> contains (s ++ t) part.
Proof.
  intros (before & after & ->). exists (s ++ before), after.
  now rewrite !append_assoc.
Qed.

Lemma contains_take (s t part : string) : contains s part -> contains (s ++ t) part.
Proof.
  intros (before & after & ->). exists before, (after ++ t).
  now rewrite !append_assoc.
Qed.

Lemma contains_trans (s t u : string) : contains s t -> contains t u -> contains s u.
Proof.
  intros (b1 & a1 & ->) (b2 & a2 & ->). exists (b1 ++ b2), (a2 ++ a1).
  now rewrite !append_assoc.
Qed.

Lemma str_concat_map_contains {A} (f : A -> string) (l : list A) (x : A) :
  In x l -> contains (str_concat_map f l) (f x).
Proof.
  induction l as [| y l IH]; [contradiction |].
  intros [-> | H]; simpl.
  - apply contains_take. exists EmptyString, EmptyString.
    simpl. symmetry. apply PyStrMore.append_empty_r.
  - now apply contains_skip, IH.
Qed.

(** Going along the pieces of a text up to the one that holds [marker]. *)
Ltac skip_to marker :=
  repeat lazymatch goal with
         | |- contains (?h ++ _) _ =>
             lazymatch h with
             | context [marker] => fail
             | _ => apply contains_skip
             end
         end.

(** The rendered text holds the [hdrs] attribute with the value of
    [headers] when that value is not empty. *)
Lemma render_contains_hdrs (c : Context) :
  truthy (ctx_headers c) = true ->
  contains (render c) ("hdrs = glob([" ++ ctx_headers c ++ "]),").
Proof.
  intros Ht. unfold render. skip_to "    hdrs = glob([".
  apply contains_take. rewrite Ht. unfold when.
  exists (NL ++ "    "), (NL ++ "    "). now rewrite !append_assoc.
Qed.

Lemma render_contains_includes (c : Context) :
  truthy (ctx_includes c) = true ->
  contains (render c) ("includes = [" ++ ctx_includes c ++ "],").
Proof.
  intros Ht. unfold render. skip_to "    includes = [".
  apply contains_take. rewrite Ht. unfold when.
  exists (NL ++ "    "), (NL ++ "    "). now rewrite !append_assoc.
Qed.

Lemma render_contains_cc_import (c : Context) (lib file : string) :
  In (lib, file) (ctx_libs c) ->
  contains (render c) (cc_import_rule lib (ctx_library_type c) file).
Proof.
  intros Hin. unfold render. skip_to render_cc_import.
  apply contains_take.
  apply (contains_trans _ (render_cc_import (ctx_library_type c) (lib, file)));
    [now apply str_concat_map_contains |].
  exists NL, NL. unfold render_cc_import, cc_import_rule. simpl fst. simpl snd.
  now rewrite !append_assoc.
Qed.

Lemma quoted_list_truthy (f : string -> string) (x : string) (rest : list string) :
  truthy (join ", " (map (fun r => DQ ++ f r) (x :: rest))) = true.
Proof. cbn [map]. now apply join_truthy. Qed.

(** C7: in the BUILD file of a dependency with a package folder, the
    [hdrs] and [includes] attributes list the include directories, and
    the [cc_import] rule of each located library names its file, each
    path written as what remains of it after the package folder when
    it starts with the package folder and as the whole path otherwise,
    in both cases with every backslash replaced by a forward slash and
    without leading slashes. *)
Theorem relativize_path_layout (d : Dependency) (folder text : string) :
  package_folder d = Some folder ->
  snd (_get_dependency_buildfile_content env d) = inr (Some text) ->
  (includedirs (cpp_info d) <> [] ->
   contains text (hdrs_attribute folder (includedirs (cpp_info d)))
   /\ contains text (includes_attribute folder (includedirs (cpp_info d))))
  /\ (forall lib file,
        In lib (libs (cpp_info d)) ->
        snd (_get_lib_file_paths env (libdirs (cpp_info d)) lib) = inr (Some file) ->
        truthy file = true ->
        contains text
          (cc_import_rule lib (library_type_of d) (relative_to folder file)))
  /\ (forall path,
        _relativize_path path (Some folder) = inr (relative_to folder path)
        /\ has_char backslash (relative_to folder path) = false
        /\ startswith (relative_to folder path) "/" = false)
  /\ (forall rest,
        relative_to folder (folder ++ rest)
        = without_leading_slashes (forward_slashes rest))
  /\ (forall path,
        startswith path folder = false ->
        relative_to folder path = without_leading_slashes (forward_slashes path)).
Proof.
  intros Hfolder Hcontent.
  assert (Hrender : exists found,
             snd (locate_libs env (libdirs (cpp_info d)) (Some folder)
                    (libs (cpp_info d)) []) = inr found
             /\ text = render
                  (mkContext (ref_name d) found
                     (join ", " (map (fun r => DQ ++ r ++ "/**" ++ DQ)
                                     (map (relative_to folder) (includedirs (cpp_info d)))))
                     (join ", " (map (fun r => DQ ++ r ++ DQ)
                                     (map (relative_to folder) (includedirs (cpp_info d)))))
                     (join ", " (map format_define (defines (cpp_info d))))
                     (join ", " (map (format_linkopt env) (system_libs (cpp_info d))))
                     (library_type_of d) (dependencies d))).
  { unfold _get_dependency_buildfile_content in Hcontent.
    rewrite Hfolder in Hcontent.
    match type of Hcontent with
    | context [if ?c then _ else _] => destruct c
    end; [discriminate |].
    rewrite relativize_all_relative_to in Hcontent.
    unfold lift in Hcontent. rewrite bind_returned in Hcontent. cbn [snd] in Hcontent.
    apply bind_inr in Hcontent as (found & Hfound & H & _).
    exists found. split; [exact Hfound |].
    simpl in H. now injection H as <-. }
  destruct Hrender as (found & Hfound & ->).
  split; [| split; [| split; [| split]]].
  - intros Hdirs.
    destruct (includedirs (cpp_info d)) as [| dir dirs] eqn:Hinc; [now elim Hdirs |].
    unfold hdrs_attribute, includes_attribute.
    rewrite <- (map_map (relative_to folder) (fun r => DQ ++ r ++ "/**" ++ DQ)).
    rewrite <- (map_map (relative_to folder) (fun r => DQ ++ r ++ DQ)). split.
    + apply (render_contains_hdrs (mkContext _ _ _ _ _ _ _ _)).
      cbn [ctx_headers]. apply (quoted_list_truthy (fun r => r ++ "/**" ++ DQ)).
    + apply (render_contains_includes (mkContext _ _ _ _ _ _ _ _)).
      cbn [ctx_includes]. apply (quoted_list_truthy (fun r => r ++ DQ)).
  - intros lib file Hlib Hloc Htruthy.
    apply (render_contains_cc_import (mkContext _ _ _ _ _ _ _ _)).
    cbn [ctx_libs].
    destruct (locate_libs_entries env _ _ _ _ _ Hfound (NoDup_nil _))
      as (_ & _ & Hentries & Hkeys).
    pose proof (Hkeys lib file Hlib Hloc Htruthy) as Hkey.
    apply in_map_iff in Hkey as ([k v] & Hk & Hin). simpl in Hk. subst k.
    destruct (Hentries lib v Hin) as [[] | (_ & path & Hpath & Hv)].
    rewrite Hloc in Hpath. injection Hpath as <-.
    rewrite relativize_path_relative_to in Hv. injection Hv as <-.
    exact Hin.
  - intros path. split; [apply relativize_path_relative_to |].
    unfold relative_to.
    rewrite <- forward_slashes_replace, <- without_leading_slashes_lstrip.
    split; [apply lstrip_has_char, replace_removes; reflexivity |].
    apply (lstrip_no_lead slash).
  - intros rest. unfold relative_to.
    now rewrite startswith_app, slice_from_app.
  - intros path H. unfold relative_to. now rewrite H.
Qed.

End BuildText.

Lemma relativize_path_layout_witness :
  contains
    (match snd (_get_dependency_buildfile_content Example.linux Example.zlib) with
     | inr (Some text) => text
     | _ => EmptyString
     end)
    (cc_import_rule "z" "static_library" "lib/libz.a")
  /\ relative_to "/pkg/zlib" "/pkg/zlib\include\zlib" = "include/zlib"
  /\ relative_to "/pkg/zlib" "C:\other\include" = "C:/other/include".
Proof.
  pose proof (relativize_path_layout Example.linux Example.zlib "/pkg/zlib" _
                eq_refl eq_refl) as (_ & Hlibs & _ & Hunder & Hother).
  split; [| split].
  - exact (Hlibs "z" "/pkg/zlib/lib/libz.a" (or_introl eq_refl) eq_refl eq_refl).
  - exact (Hunder "\include\zlib").
  - exact (Hother "C:\other\include" eq_refl).
Defined.
